(** * daikinthing: a WebThing mirror of Daikin A/C units

    Shallow embedding of [daikinthing.py]: the two polling coroutines
    ([DaikinAC.update_level], [DaikinCondenser.update_level]), the three
    write callbacks ([set_tgt_temp], [set_power], [set_tmode]) and
    [cancel_update_level_task], together with the parts of Python, asyncio,
    [webthing.Value] and the [daikinapi.Daikin] client they rely on. *)

From Stdlib Require Import ZArith NArith QArith List String Ascii Bool Lia.
From Stdlib Require Import Floats.SpecFloat.
Import ListNotations.
Local Open Scope Z_scope.

(** ** Python values *)

Module Py.

(** A [str] is a sequence of Unicode code points. *)
Definition str := list N.

(** The values that travel between the device client, the coroutine and the
    property values: [None], [bool], [int], [float] (binary floating point,
    with its infinities and NaN) and [str]. *)
Inductive PyVal : Type :=
| PyNone
| PyBool (b : bool)
| PyInt (z : Z)
| PyFloat (f : spec_float)
| PyStr (s : str).

(** A source-code string literal. *)
Definition lit (s : string) : str :=
  map N_of_ascii (list_ascii_of_string s).

(** [isinstance(v, (int, float))]; [bool] is a subclass of [int]. *)
Definition isinstance_int_float (v : PyVal) : bool :=
  match v with
  | PyBool _ | PyInt _ | PyFloat _ => true
  | PyNone | PyStr _ => false
  end.

(** [isinstance(v, str)] *)
Definition isinstance_str (v : PyVal) : bool :=
  match v with
  | PyStr _ => true
  | _ => false
  end.

(** The code points whose Unicode [Numeric_Type] is Decimal, Digit or
    Numeric (Unicode 14.0, the table of CPython 3.11), as inclusive ranges.
    These are the characters [str.isnumeric] accepts. *)
Definition numeric_ranges : list (N * N) :=
  [ (48, 57); (178, 179); (185, 185); (188, 190); (1632, 1641); (1776, 1785)
  ; (1984, 1993); (2406, 2415); (2534, 2543); (2548, 2553); (2662, 2671)
  ; (2790, 2799); (2918, 2927); (2930, 2935); (3046, 3058); (3174, 3183)
  ; (3192, 3198); (3302, 3311); (3416, 3422); (3430, 3448); (3558, 3567)
  ; (3664, 3673); (3792, 3801); (3872, 3891); (4160, 4169); (4240, 4249)
  ; (4969, 4988); (5870, 5872); (6112, 6121); (6128, 6137); (6160, 6169)
  ; (6470, 6479); (6608, 6618); (6784, 6793); (6800, 6809); (6992, 7001)
  ; (7088, 7097); (7232, 7241); (7248, 7257); (8304, 8304); (8308, 8313)
  ; (8320, 8329); (8528, 8578); (8581, 8585); (9312, 9371); (9450, 9471)
  ; (10102, 10131); (11517, 11517); (12295, 12295); (12321, 12329)
  ; (12344, 12346); (12690, 12693); (12832, 12841); (12872, 12879)
  ; (12881, 12895); (12928, 12937); (12977, 12991); (13317, 13317)
  ; (13443, 13443); (14378, 14378); (15181, 15181); (19968, 19968)
  ; (19971, 19971); (19975, 19975); (19977, 19977); (20061, 20061)
  ; (20108, 20108); (20116, 20116); (20118, 20118); (20159, 20160)
  ; (20191, 20191); (20200, 20200); (20237, 20237); (20336, 20336)
  ; (20740, 20740); (20806, 20806); (20841, 20841); (20843, 20843)
  ; (20845, 20845); (21313, 21313); (21315, 21317); (21324, 21324)
  ; (21441, 21444); (22235, 22235); (22769, 22769); (22777, 22777)
  ; (24186, 24186); (24318, 24319); (24332, 24334); (24336, 24336)
  ; (25342, 25342); (25420, 25420); (26578, 26578); (28422, 28422)
  ; (29590, 29590); (30334, 30334); (32902, 32902); (33836, 33836)
  ; (36014, 36014); (36019, 36019); (36144, 36144); (38433, 38433)
  ; (38470, 38470); (38476, 38476); (38520, 38520); (38646, 38646)
  ; (42528, 42537); (42726, 42735); (43056, 43061); (43216, 43225)
  ; (43264, 43273); (43472, 43481); (43504, 43513); (43600, 43609)
  ; (44016, 44025); (63851, 63851); (63859, 63859); (63864, 63864)
  ; (63922, 63922); (63953, 63953); (63955, 63955); (63997, 63997)
  ; (65296, 65305); (65799, 65843); (65856, 65912); (65930, 65931)
  ; (66273, 66299); (66336, 66339); (66369, 66369); (66378, 66378)
  ; (66513, 66517); (66720, 66729); (67672, 67679); (67705, 67711)
  ; (67751, 67759); (67835, 67839); (67862, 67867); (68028, 68029)
  ; (68032, 68047); (68050, 68095); (68160, 68168); (68221, 68222)
  ; (68253, 68255); (68331, 68335); (68440, 68447); (68472, 68479)
  ; (68521, 68527); (68858, 68863); (68912, 68921); (69216, 69246)
  ; (69405, 69414); (69457, 69460); (69573, 69579); (69714, 69743)
  ; (69872, 69881); (69942, 69951); (70096, 70105); (70113, 70132)
  ; (70384, 70393); (70736, 70745); (70864, 70873); (71248, 71257)
  ; (71360, 71369); (71472, 71483); (71904, 71922); (72016, 72025)
  ; (72784, 72812); (73040, 73049); (73120, 73129); (73664, 73684)
  ; (74752, 74862); (92768, 92777); (92864, 92873); (93008, 93017)
  ; (93019, 93025); (93824, 93846); (119520, 119539); (119648, 119672)
  ; (120782, 120831); (123200, 123209); (123632, 123641); (125127, 125135)
  ; (125264, 125273); (126065, 126123); (126125, 126127); (126129, 126132)
  ; (126209, 126253); (126255, 126269); (127232, 127244); (130032, 130041)
  ; (131073, 131073); (131172, 131172); (131298, 131298); (131361, 131361)
  ; (133418, 133418); (133507, 133507); (133516, 133516); (133532, 133532)
  ; (133866, 133866); (133885, 133885); (133913, 133913); (140176, 140176)
  ; (141720, 141720); (146203, 146203); (156269, 156269); (194704, 194704) ]%N.

Definition in_range (c : N) (r : N * N) : bool :=
  ((fst r <=? c) && (c <=? snd r))%N.

Definition unicode_numeric (c : N) : bool :=
  existsb (in_range c) numeric_ranges.

(** [s.isnumeric()]: at least one character, and all of them numeric. *)
Definition isnumeric (s : str) : bool :=
  match s with
  | [] => false
  | _ :: _ => forallb unicode_numeric s
  end.

(** Numbers are compared by value across [bool], [int] and [float]. *)
Inductive num : Type :=
| Fin (q : Q)
| Inf (negative : bool)
| NaN.

Definition num_of_float (f : spec_float) : num :=
  match f with
  | S754_zero _ => Fin 0
  | S754_infinity s => Inf s
  | S754_nan => NaN
  | S754_finite s m e =>
      let mag := match e with
                 | Z0 => Z.pos m # 1
                 | Zpos k => (Z.pos m * 2 ^ Z.pos k) # 1
                 | Zneg k => Z.pos m # (2 ^ k)
                 end in
      Fin (if s then Qopp mag else mag)
  end.

Definition num_of (v : PyVal) : option num :=
  match v with
  | PyBool b => Some (Fin (if b then 1 else 0))
  | PyInt z => Some (Fin (z # 1))
  | PyFloat f => Some (num_of_float f)
  | PyNone | PyStr _ => None
  end.

Definition num_eqb (a b : num) : bool :=
  match a, b with
  | Fin x, Fin y => Qeq_bool x y
  | Inf s, Inf t => Bool.eqb s t
  | _, _ => false
  end.

Fixpoint str_eqb (s t : str) : bool :=
  match s, t with
  | [], [] => true
  | c :: s', d :: t' => (c =? d)%N && str_eqb s' t'
  | _, _ => false
  end.

(** [a == b] *)
Definition py_eq (a b : PyVal) : bool :=
  match num_of a, num_of b with
  | Some x, Some y => num_eqb x y
  | None, None =>
      match a, b with
      | PyNone, PyNone => true
      | PyStr s, PyStr t => str_eqb s t
      | _, _ => false
      end
  | _, _ => false
  end.

(** [a != b] *)
Definition py_ne (a b : PyVal) : bool := negb (py_eq a b).

(** Truth value of [v], as tested by [if v] and [x if v else y]. *)
Definition truthy (v : PyVal) : bool :=
  match v with
  | PyNone => false
  | PyBool b => b
  | PyInt z => negb (z =? 0)
  | PyFloat f =>
      match f with
      | S754_zero _ => false
      | _ => true
      end
  | PyStr s =>
      match s with
      | [] => false
      | _ => true
      end
  end.

(** [v is not None] *)
Definition is_not_None (v : PyVal) : bool :=
  match v with
  | PyNone => false
  | _ => true
  end.

(** [type(v) is bool], [type(v) is int] *)
Definition is_bool (v : PyVal) : bool :=
  match v with
  | PyBool _ => true
  | _ => false
  end.


(** Exceptions that occur in the program. [ReadError] and [WriteError] stand
    for whatever a failing device request raises; [CancelledError] is
    asyncio's cancellation signal. *)
Inductive exn : Type :=
| ReadError
| WriteError
| CancelledError.

Definition is_CancelledError (e : exn) : bool :=
  match e with
  | CancelledError => true
  | _ => false
  end.

End Py.
Import Py.

(** ** Effects: state passing with exceptions

    A computation takes the current state and gives an outcome together with
    the state it leaves behind; what was done before an exception was raised
    stays done. *)

Module Eff.

Inductive outcome (A : Type) : Type :=
| Return (a : A)
| Raise (e : exn).
Arguments Return {A} a.
Arguments Raise {A} e.

Definition M (S A : Type) : Type := S -> outcome A * S.

Definition ret {S A} (a : A) : M S A := fun s => (Return a, s).

Definition raise {S A} (e : exn) : M S A := fun s => (Raise e, s).

Definition bind {S A B} (c : M S A) (k : A -> M S B) : M S B :=
  fun s =>
    match c s with
    | (Return a, s') => k a s'
    | (Raise e, s') => (Raise e, s')
    end.

(** [try: c  except: h] with a bare [except], which catches everything. *)
Definition try_except {S A} (c : M S A) (h : M S A) : M S A :=
  fun s =>
    match c s with
    | (Return a, s') => (Return a, s')
    | (Raise _, s') => h s'
    end.

(** [try: c  except CancelledError: h], which lets every other exception
    through. *)
Definition try_except_CancelledError {S A} (c : M S A) (h : M S A) : M S A :=
  fun s =>
    match c s with
    | (Return a, s') => (Return a, s')
    | (Raise e, s') => if is_CancelledError e then h s' else (Raise e, s')
    end.

Definition modify {S} (f : S -> S) : M S unit := fun s => (Return tt, f s).

Definition pass {S} : M S unit := ret tt.

Declare Scope eff_scope.
Delimit Scope eff_scope with eff.
Notation "x <- c ;; k" := (bind c (fun x => k))
  (at level 61, c at next level, right associativity) : eff_scope.
Notation "c ;; k" := (bind c (fun _ => k))
  (at level 61, right associativity) : eff_scope.

End Eff.
Import Eff.
Local Open Scope eff_scope.

(** ** [webthing.Value] *)

Module Webthing.

(** A property value as the hosting framework keeps it: [last_value] is what
    consumers read; [pushed] records the arguments of every call of
    [notify_of_external_update], most recent first. *)
Record Value : Type := {
  last_value : PyVal;
  pushed : list PyVal
}.

(** [Value(initial_value)] *)
Definition new_Value (initial_value : PyVal) : Value :=
  {| last_value := initial_value; pushed := [] |}.

(** [Value.notify_of_external_update(value)]:
    [if value is not None and value != self.last_value:
       self.last_value = value; self.emit('update', value)].
    The value is stored (and announced) when it is not [None] and differs,
    by Python's [!=], from the stored one. *)
Definition notify_of_external_update (value : PyVal) (self : Value) : Value :=
  {| last_value :=
       if is_not_None value && py_ne value (last_value self)
       then value else last_value self;
     pushed := value :: pushed self |}.

End Webthing.
Import Webthing.

(** ** [daikinapi.Daikin] *)

Module Daikin.

(** The device client. Every attribute read and every attribute assignment
    is one request to the appliance, which answers from (and may change) its
    own state [Dev]. A read that gives [None] and a write that gives [false]
    are requests that failed; the client then raises. Temperatures arrive as
    whatever the client decodes, [mode] and [power] as integers. Creating
    the handle, [Daikin(ip_addr)], sends nothing. *)
Class Client (Dev : Type) : Type := {
  inside_temperature : Dev -> option PyVal * Dev;
  outside_temperature : Dev -> option PyVal * Dev;
  target_temperature : Dev -> option PyVal * Dev;
  mode : Dev -> option Z * Dev;
  power : Dev -> option Z * Dev;
  set_target_temperature : PyVal -> Dev -> bool * Dev;
  set_mode : Z -> Dev -> bool * Dev;
  set_power : Z -> Dev -> bool * Dev
}.

End Daikin.

(** ** asyncio tasks *)

Module Asyncio.

(** The life of the task created by [create_task(self.update_level())]. *)
Inductive task : Type :=
| Created             (* scheduled; the coroutine has not run yet *)
| Sleeping            (* suspended in [await sleep(...)] *)
| Done                (* the coroutine returned *)
| Failed (e : exn).   (* the coroutine raised [e]; with [CancelledError]
                         the task counts as cancelled *)

(** How a pending [await sleep(...)] ends: the delay elapses, or the task
    was cancelled and [CancelledError] is raised at the [await]. *)
Inductive wakeup : Type :=
| Elapsed
| Cancelled.

Definition done (t : task) : bool :=
  match t with
  | Created | Sleeping => false
  | Done | Failed _ => true
  end.

End Asyncio.
Import Asyncio.

(** ** What both Things share *)

Definition UPDATE_THING_SECONDS : Z := 15.

(** A Thing together with the appliance it talks to. [props] holds the
    Thing's property values; [slept] is the time in seconds the update task
    has spent in sleeps that ran to their end. *)
Record world (Dev Props : Type) : Type := {
  device : Dev;
  props : Props;
  sensor_update_task : task;
  slept : Z
}.
Arguments device {Dev Props} w.
Arguments props {Dev Props} w.
Arguments sensor_update_task {Dev Props} w.
Arguments slept {Dev Props} w.

Section World.
Context {Dev Props : Type}.
Let W : Type := world Dev Props.

Definition with_device (d : Dev) (w : W) : W :=
  {| device := d; props := props w;
     sensor_update_task := sensor_update_task w; slept := slept w |}.

Definition with_props (p : Props) (w : W) : W :=
  {| device := device w; props := p;
     sensor_update_task := sensor_update_task w; slept := slept w |}.

Definition with_task (t : task) (w : W) : W :=
  {| device := device w; props := props w;
     sensor_update_task := t; slept := slept w |}.

Definition with_slept (n : Z) (w : W) : W :=
  {| device := device w; props := props w;
     sensor_update_task := sensor_update_task w; slept := n |}.

(** Reading an attribute of a [Daikin] handle. *)
Definition daikin_get {A} (rd : Dev -> option A * Dev) : M W A :=
  fun w =>
    let (r, d) := rd (device w) in
    (match r with
     | Some v => Return v
     | None => Raise ReadError
     end, with_device d w).

(** Assigning an attribute of a [Daikin] handle. *)
Definition daikin_set (wr : Dev -> bool * Dev) : M W unit :=
  fun w =>
    let (ok, d) := wr (device w) in
    ((if ok then Return tt else Raise WriteError), with_device d w).

(** [await sleep(seconds)], seen from the coroutine that is resumed. *)
Definition await_sleep (seconds : Z) (how : wakeup) : M W unit :=
  match how with
  | Elapsed => modify (fun w => with_slept (slept w + seconds) w)
  | Cancelled => raise CancelledError
  end.

(** One resumption of a task suspended in its sleep: the coroutine
    [coro] runs from the [await] to its next suspension or to its end. *)
Definition resume (coro : wakeup -> M W task) (how : wakeup) (w : W) : W :=
  match coro how w with
  | (Return t, w') => with_task t w'
  | (Raise e, w') => with_task (Failed e) w'
  end.

(** The shape of both [update_level] coroutines, from one resumption of
    the [await sleep(...)] to the next suspension, with the loop body after
    the sleep as [body]. *)
Definition loop_turn (body : M W unit) (how : wakeup) : M W task :=
  try_except_CancelledError
    (await_sleep UPDATE_THING_SECONDS how ;; body ;; ret Sleeping)
    (ret Done).

(** [task.cancel()] followed by [run_until_complete(task)]. A finished
    task ignores the cancellation. A task that never ran gets
    [CancelledError] before the first statement of the coroutine; a
    sleeping one gets it at its [await]. [run_until_complete] hands back
    the task's result, raising what the coroutine raised. *)
Definition cancel_and_run_until_complete (coro : wakeup -> M W task)
  : M W unit :=
  fun w =>
    let w' := match sensor_update_task w with
              | Created => with_task (Failed CancelledError) w
              | Sleeping => resume coro Cancelled w
              | Done | Failed _ => w
              end in
    (match sensor_update_task w' with
     | Failed e => Raise e
     | _ => Return tt
     end, w').

End World.

(** Two worlds that differ at most in the state of the appliance. *)
Definition same_thing {Dev Props} (w w' : world Dev Props) : Prop :=
  exists d, w' = with_device d w.

(** The world when the sleep of an iteration has run out and its poll is
    about to start. *)
Definition after_sleep {Dev Props} (w : world Dev Props) : world Dev Props :=
  with_slept (slept w + UPDATE_THING_SECONDS) w.

(** ** Translation between device fields and property values *)

(** The test guarding the temperature notifications in
    [DaikinAC.update_level]:
    [isinstance(v, (int, float)) or (isinstance(v, str) and v.isnumeric())] *)
Definition is_numeric (v : PyVal) : bool :=
  isinstance_int_float v
  || (isinstance_str v
      && match v with
         | PyStr s => isnumeric s
         | _ => false
         end).

(** The [if power == 0: ... elif mode == 2: ... else: ...] chain of
    [DaikinAC.update_level] that computes [tmode]; the comparisons are
    Python's [==]. *)
Definition decode_mode (power mode : PyVal) : string :=
  if py_eq power (PyInt 0) then "off"
  else if py_eq mode (PyInt 2) then "dehumid"
  else if py_eq mode (PyInt 3) then "cool"
  else if py_eq mode (PyInt 4) then "heat"
  else if py_eq mode (PyInt 6) then "fan"
  else "auto".

(** What a write callback assigns on the [Daikin] handle. *)
Inductive command : Type :=
| AssignTargetTemperature (v : PyVal)
| AssignPower (p : Z)
| AssignMode (m : Z).

(** The [if new_tmode == "off": ... else: ...] chain of [set_tmode]: which
    attribute is assigned, and what. *)
Definition encode_mode (new_tmode : PyVal) : command :=
  if py_eq new_tmode (PyStr (lit "off")) then AssignPower 0
  else if py_eq new_tmode (PyStr (lit "dehumid")) then AssignMode 2
  else if py_eq new_tmode (PyStr (lit "cool")) then AssignMode 3
  else if py_eq new_tmode (PyStr (lit "heat")) then AssignMode 4
  else if py_eq new_tmode (PyStr (lit "fan")) then AssignMode 6
  else AssignMode 1.

(** The power flag and mode code of an appliance after it has taken a
    command: an assignment replaces its own field and leaves the other. *)
Definition commanded (c : command) (pm : Z * Z) : Z * Z :=
  match c with
  | AssignTargetTemperature _ => pm
  | AssignPower p => (p, snd pm)
  | AssignMode m => (fst pm, m)
  end.

(** The result of the write-side mapping as the specification words it: a
    pair of a power to set and a mode code to set, one of them absent. *)
Definition encoded_pair (c : command) : PyVal * PyVal :=
  match c with
  | AssignTargetTemperature _ => (PyNone, PyNone)
  | AssignPower p => (PyInt p, PyNone)
  | AssignMode m => (PyNone, PyInt m)
  end.

(** *** The mode enumeration of the specification *)

Inductive SemanticMode : Type :=
| Off | Auto | Cool | Heat | Dehumidify | Fan.

(** The names of the modes in the [enum] of the [mode] property. *)
Definition mode_name (m : SemanticMode) : string :=
  match m with
  | Off => "off"
  | Auto => "auto"
  | Cool => "cool"
  | Heat => "heat"
  | Dehumidify => "dehumid"
  | Fan => "fan"
  end.

(** The reference table, following the specification's wording: power 0 is
    Off whatever the mode code; otherwise 2, 3, 4 and 6 are Dehumidify,
    Cool, Heat and Fan, and every other code is Auto. *)
Definition decode_mode_spec (power mode_code : Z) : SemanticMode :=
  match power with
  | 0 => Off
  | _ =>
      match mode_code with
      | 2 => Dehumidify
      | 3 => Cool
      | 4 => Heat
      | 6 => Fan
      | _ => Auto
      end
  end.

(** A string made of ASCII decimal digits only, following the
    specification's wording of the digit-only case. *)
Definition ascii_digit (c : N) : bool := ((48 <=? c) && (c <=? 57))%N.

Definition digits_only (s : str) : bool := forallb ascii_digit s.

(** ** DaikinAC *)

Module DaikinAC.

(** The four property values of the Thing. *)
Record Values : Type := {
  room_temperature : Value;
  target_temperature : Value;
  thermo_mode : Value;
  power : Value
}.

(** The values created by [__init__]: [Value(0.0)], [Value(0.0, ...)],
    [Value("off", ...)] and [Value(False, ...)]. *)
Definition init_values : Values :=
  {| room_temperature := new_Value (PyFloat (S754_zero false));
     target_temperature := new_Value (PyFloat (S754_zero false));
     thermo_mode := new_Value (PyStr (lit "off"));
     power := new_Value (PyBool false) |}.

Definition notify_room_temperature (v : PyVal) (p : Values) : Values :=
  {| room_temperature := notify_of_external_update v (room_temperature p);
     target_temperature := target_temperature p;
     thermo_mode := thermo_mode p;
     power := power p |}.

Definition notify_target_temperature (v : PyVal) (p : Values) : Values :=
  {| room_temperature := room_temperature p;
     target_temperature := notify_of_external_update v (target_temperature p);
     thermo_mode := thermo_mode p;
     power := power p |}.

Definition notify_thermo_mode (v : PyVal) (p : Values) : Values :=
  {| room_temperature := room_temperature p;
     target_temperature := target_temperature p;
     thermo_mode := notify_of_external_update v (thermo_mode p);
     power := power p |}.

Definition notify_power (v : PyVal) (p : Values) : Values :=
  {| room_temperature := room_temperature p;
     target_temperature := target_temperature p;
     thermo_mode := thermo_mode p;
     power := notify_of_external_update v (power p) |}.

(** The values after the notifications of one poll that read [in_temp],
    [tgt_temp], [mode] and [power]. *)
Definition notified (in_temp tgt_temp : PyVal) (mode power : Z)
           (p : Values) : Values :=
  let p1 := if is_numeric in_temp
            then notify_room_temperature in_temp p else p in
  let p2 := if is_numeric tgt_temp
            then notify_target_temperature tgt_temp p1 else p1 in
  notify_power (PyInt power)
    (notify_thermo_mode
       (PyStr (lit (decode_mode (PyInt power) (PyInt mode)))) p2).

Section WithClient.
Context {Dev : Type} {client : Daikin.Client Dev}.
(** [DEBUG]: whether the environment of the process defines [DEBUG]. *)
Variable DEBUG : bool.

Let W : Type := world Dev Values.

Definition notify (f : PyVal -> Values -> Values) (v : PyVal) : M W unit :=
  modify (fun w => with_props (f v (props w)) w).

(** [__init__], after the Thing and its properties are set up: the update
    task is created, and has not run yet. *)
Definition init (d : Dev) : W :=
  {| device := d; props := init_values;
     sensor_update_task := Created; slept := 0 |}.

(** The loop body of [update_level] from [mode = daikinac.mode] to its
    end. The arguments of the unconditional [logging.debug] call that
    reports power and mode read both attributes once more; under [DEBUG] a
    further call does so again. All reads come before the first
    notification. *)
Definition rest_of_poll (in_temp tgt_temp : PyVal) : M W unit :=
  mode <- daikin_get Daikin.mode ;;
  power <- daikin_get Daikin.power ;;
  _ <- daikin_get Daikin.power ;;
  _ <- daikin_get Daikin.mode ;;
  let tmode := decode_mode (PyInt power) (PyInt mode) in
  (if DEBUG
   then _ <- daikin_get Daikin.power ;;
        _ <- daikin_get Daikin.mode ;;
        ret tt
   else ret tt) ;;
  (if is_numeric in_temp
   then notify notify_room_temperature in_temp
   else ret tt) ;;
  (if is_numeric tgt_temp
   then notify notify_target_temperature tgt_temp
   else ret tt) ;;
  notify notify_thermo_mode (PyStr (lit tmode)) ;;
  notify notify_power (PyInt power).

(** The body of the [while True] loop of [update_level] after the sleep:
    the two temperature reads, the second inside [try: ... except:
    tgt_temp = None], then the rest. *)
Definition poll : M W unit :=
  in_temp <- daikin_get Daikin.inside_temperature ;;
  tgt_temp <- try_except (daikin_get Daikin.target_temperature)
                         (ret PyNone) ;;
  rest_of_poll in_temp tgt_temp.

(** [update_level], from one resumption of its [await sleep(...)] to the
    next suspension: one turn of the loop inside
    [try: ... except CancelledError: pass]. *)
Definition update_level (how : wakeup) : M W task :=
  try_except_CancelledError
    (await_sleep UPDATE_THING_SECONDS how ;;
     poll ;;
     ret Sleeping)
    (ret Done).

Definition issue (c : command) : M W unit :=
  match c with
  | AssignTargetTemperature v => daikin_set (Daikin.set_target_temperature v)
  | AssignPower p => daikin_set (Daikin.set_power p)
  | AssignMode m => daikin_set (Daikin.set_mode m)
  end.

Definition set_tgt_temp (new_temp : PyVal) : M W unit :=
  issue (AssignTargetTemperature new_temp).

Definition set_power (power_state : PyVal) : M W unit :=
  issue (AssignPower (if truthy power_state then 1 else 0)).

Definition set_tmode (new_tmode : PyVal) : M W unit :=
  issue (encode_mode new_tmode).

Definition cancel_update_level_task : M W unit :=
  cancel_and_run_until_complete update_level.

(** [Value.set(value)] of webthing, through which a consumer's write
    reaches a writable property:
    [if self.value_forwarder is not None: self.value_forwarder(value)]
    and then [self.notify_of_external_update(value)]. The forwarder is the
    callback given to the [Value] in [__init__]; if it raises, nothing is
    notified. What the framework checks before it calls [Value.set] is not
    modelled: a write may carry any value. *)
Definition Value_set (value_forwarder : PyVal -> M W unit)
           (f : PyVal -> Values -> Values) (value : PyVal) : M W unit :=
  value_forwarder value ;;
  notify f value.

(** What can happen to the Thing: the event loop runs the new task up to
    its first [await]; the sleep of the task elapses; a consumer sets a
    writable property, which calls [Value.set] on the property's value;
    the server shuts down and cancels the task. *)
Inductive event : Type :=
| Start
| SleepElapsed
| SetTargetTemperature (v : PyVal)
| SetPower (v : PyVal)
| SetMode (v : PyVal)
| Shutdown.

(** The outcome is what the caller of [Value.set] (or of
    [cancel_update_level_task]) gets; the event loop's own steps return. *)
Definition step (e : event) : M W unit :=
  fun w =>
    match e with
    | Start =>
        match sensor_update_task w with
        | Created => (Return tt, with_task Sleeping w)
        | _ => (Return tt, w)
        end
    | SleepElapsed =>
        match sensor_update_task w with
        | Sleeping => (Return tt, resume update_level Elapsed w)
        | _ => (Return tt, w)
        end
    | SetTargetTemperature v =>
        Value_set set_tgt_temp notify_target_temperature v w
    | SetPower v => Value_set set_power notify_power v w
    | SetMode v => Value_set set_tmode notify_thermo_mode v w
    | Shutdown => cancel_update_level_task w
    end.

Fixpoint run (es : list event) (w : W) : W :=
  match es with
  | [] => w
  | e :: es' => run es' (snd (step e w))
  end.

(** Whether event [e], arriving in [w], is a sleep running out whose poll
    goes through to the next sleep. *)
Definition completes_poll (e : event) (w : W) : bool :=
  match e, sensor_update_task w, sensor_update_task (snd (step e w)) with
  | SleepElapsed, Sleeping, Sleeping => true
  | _, _, _ => false
  end.

(** The number of polls that go through during a run. *)
Fixpoint completed_polls (es : list event) (w : W) : nat :=
  match es with
  | [] => O
  | e :: es' =>
      ((if completes_poll e w then 1 else 0)
       + completed_polls es' (snd (step e w)))%nat
  end.

End WithClient.

End DaikinAC.

(** ** DaikinCondenser *)

Module DaikinCondenser.

Record Values : Type := {
  outside_temperature : Value
}.

(** [Value(0.0)] *)
Definition init_values : Values :=
  {| outside_temperature := new_Value (PyFloat (S754_zero false)) |}.

Definition notify_outside_temperature (v : PyVal) (p : Values) : Values :=
  {| outside_temperature :=
       notify_of_external_update v (outside_temperature p) |}.

Section WithClient.
Context {Dev : Type} {client : Daikin.Client Dev}.
Variable DEBUG : bool.

Let W : Type := world Dev Values.

Definition notify (f : PyVal -> Values -> Values) (v : PyVal) : M W unit :=
  modify (fun w => with_props (f v (props w)) w).

Definition init (d : Dev) : W :=
  {| device := d; props := init_values;
     sensor_update_task := Created; slept := 0 |}.

(** The body of the loop of [update_level] after the sleep; [DEBUG] only
    switches a log line that reads nothing from the device. *)
Definition poll : M W unit :=
  out_temp <- daikin_get Daikin.outside_temperature ;;
  (if DEBUG then ret tt else ret tt) ;;
  notify notify_outside_temperature out_temp.

Definition update_level (how : wakeup) : M W task :=
  try_except_CancelledError
    (await_sleep UPDATE_THING_SECONDS how ;;
     poll ;;
     ret Sleeping)
    (ret Done).

Definition cancel_update_level_task : M W unit :=
  cancel_and_run_until_complete update_level.

Inductive event : Type :=
| Start
| SleepElapsed
| Shutdown.

Definition step (e : event) : M W unit :=
  fun w =>
    match e with
    | Start =>
        match sensor_update_task w with
        | Created => (Return tt, with_task Sleeping w)
        | _ => (Return tt, w)
        end
    | SleepElapsed =>
        match sensor_update_task w with
        | Sleeping => (Return tt, resume update_level Elapsed w)
        | _ => (Return tt, w)
        end
    | Shutdown => cancel_update_level_task w
    end.

Fixpoint run (es : list event) (w : W) : W :=
  match es with
  | [] => w
  | e :: es' => run es' (snd (step e w))
  end.

(** Whether event [e], arriving in [w], is a sleep running out whose poll
    goes through to the next sleep. *)
Definition completes_poll (e : event) (w : W) : bool :=
  match e, sensor_update_task w, sensor_update_task (snd (step e w)) with
  | SleepElapsed, Sleeping, Sleeping => true
  | _, _, _ => false
  end.

(** The number of polls that go through during a run. *)
Fixpoint completed_polls (es : list event) (w : W) : nat :=
  match es with
  | [] => O
  | e :: es' =>
      ((if completes_poll e w then 1 else 0)
       + completed_polls es' (snd (step e w)))%nat
  end.

End WithClient.

End DaikinCondenser.

(** ** A simulated appliance

    An appliance for concrete runs. It counts the requests it receives and
    lets the next [outage] of them fail; otherwise it answers from its
    fields, and an assignment replaces the field it names. [stemp] is
    absent when the appliance has no target temperature to report. *)

Module Sim.

Record appliance : Type := {
  outage : nat;
  requests : nat;
  htemp : PyVal;
  otemp : PyVal;
  stemp : option PyVal;
  pow : Z;
  mode_code : Z
}.

Definition received (d : appliance) (outage' : nat) : appliance :=
  {| outage := outage'; requests := S (requests d);
     htemp := htemp d; otemp := otemp d; stemp := stemp d;
     pow := pow d; mode_code := mode_code d |}.

Definition read {A} (answer : appliance -> option A) (d : appliance)
  : option A * appliance :=
  match outage d with
  | O => (answer d, received d O)
  | S k => (None, received d k)
  end.

Definition write (update : appliance -> appliance) (d : appliance)
  : bool * appliance :=
  match outage d with
  | O => (true, update (received d O))
  | S k => (false, received d k)
  end.

Definition put_stemp (v : PyVal) (d : appliance) : appliance :=
  {| outage := outage d; requests := requests d;
     htemp := htemp d; otemp := otemp d; stemp := Some v;
     pow := pow d; mode_code := mode_code d |}.

Definition put_pow (p : Z) (d : appliance) : appliance :=
  {| outage := outage d; requests := requests d;
     htemp := htemp d; otemp := otemp d; stemp := stemp d;
     pow := p; mode_code := mode_code d |}.

Definition put_mode (m : Z) (d : appliance) : appliance :=
  {| outage := outage d; requests := requests d;
     htemp := htemp d; otemp := otemp d; stemp := stemp d;
     pow := pow d; mode_code := m |}.

#[export] Instance client : Daikin.Client appliance := {|
  Daikin.inside_temperature := read (fun d => Some (htemp d));
  Daikin.outside_temperature := read (fun d => Some (otemp d));
  Daikin.target_temperature := read stemp;
  Daikin.mode := read (fun d => Some (mode_code d));
  Daikin.power := read (fun d => Some (pow d));
  Daikin.set_target_temperature := fun v => write (put_stemp v);
  Daikin.set_mode := fun m => write (put_mode m);
  Daikin.set_power := fun p => write (put_pow p)
|}.

(** 21.5 as a binary float: 43 * 2^-1. *)
Definition f21_5 : PyVal := PyFloat (S754_finite false 43 (-1)).

(** A reachable appliance: on, cooling, 21.5 degrees inside, 30 outside,
    target 22. *)
Definition cooling : appliance :=
  {| outage := 0; requests := 0;
     htemp := f21_5; otemp := PyInt 30; stemp := Some (PyInt 22);
     pow := 1; mode_code := 3 |}.

Definition with_outage (n : nat) (d : appliance) : appliance :=
  {| outage := n; requests := requests d;
     htemp := htemp d; otemp := otemp d; stemp := stemp d;
     pow := pow d; mode_code := mode_code d |}.

Definition with_htemp (v : PyVal) (d : appliance) : appliance :=
  {| outage := outage d; requests := requests d;
     htemp := v; otemp := otemp d; stemp := stemp d;
     pow := pow d; mode_code := mode_code d |}.

Definition with_otemp (v : PyVal) (d : appliance) : appliance :=
  {| outage := outage d; requests := requests d;
     htemp := htemp d; otemp := v; stemp := stemp d;
     pow := pow d; mode_code := mode_code d |}.

Definition without_stemp (d : appliance) : appliance :=
  {| outage := outage d; requests := requests d;
     htemp := htemp d; otemp := otemp d; stemp := None;
     pow := pow d; mode_code := mode_code d |}.

End Sim.
Import Sim.

(** ** Concrete runs *)

Module Scenario.

(** An indoor unit whose appliance fails the first request it gets and is
    reachable from then on, over three poll intervals. *)
Definition ac_after_outage : world appliance DaikinAC.Values :=
  DaikinAC.run false
    [DaikinAC.Start; DaikinAC.SleepElapsed; DaikinAC.SleepElapsed;
     DaikinAC.SleepElapsed]
    (DaikinAC.init (with_outage 1 cooling)).


(** A condenser whose appliance reports the outside temperature as the
    string "N/A", after its first poll. *)
Definition condenser_not_available : world appliance DaikinCondenser.Values :=
  DaikinCondenser.run false
    [DaikinCondenser.Start; DaikinCondenser.SleepElapsed]
    (DaikinCondenser.init (with_otemp (PyStr (lit "N/A")) cooling)).



(** A sleeping indoor unit whose appliance has no target temperature to
    report. *)
Definition ac_no_target : world appliance DaikinAC.Values :=
  with_task Sleeping (DaikinAC.init (without_stemp cooling)).


(** A sleeping indoor unit and a sleeping condenser. *)
Definition ac_sleeping : world appliance DaikinAC.Values :=
  with_task Sleeping (DaikinAC.init cooling).

Definition condenser_sleeping : world appliance DaikinCondenser.Values :=
  with_task Sleeping (DaikinCondenser.init cooling).

(** An indoor unit on which a consumer sets the power and the mode right
    after the update task has started, before any sleep has run out. *)
Definition ac_written_early : world appliance DaikinAC.Values :=
  DaikinAC.run false
    [DaikinAC.Start; DaikinAC.SetPower (PyBool true);
     DaikinAC.SetMode (PyStr (lit "heat"))]
    (DaikinAC.init cooling).

(** An indoor unit that has just been constructed: its update task has
    not run yet. *)
Definition ac_created : world appliance DaikinAC.Values :=
  DaikinAC.init cooling.

End Scenario.

(** Events that are not calls of a write callback. *)
Definition loop_event (e : DaikinAC.event) : bool :=
  match e with
  | DaikinAC.Start | DaikinAC.SleepElapsed | DaikinAC.Shutdown => true
  | _ => false
  end.

(** The values a run's events write to the three writable properties. *)
Definition written_target (es : list DaikinAC.event) : list PyVal :=
  flat_map (fun e => match e with
                     | DaikinAC.SetTargetTemperature v => [v]
                     | _ => []
                     end) es.

Definition written_power (es : list DaikinAC.event) : list PyVal :=
  flat_map (fun e => match e with
                     | DaikinAC.SetPower v => [v]
                     | _ => []
                     end) es.

Definition written_mode (es : list DaikinAC.event) : list PyVal :=
  flat_map (fun e => match e with
                     | DaikinAC.SetMode v => [v]
                     | _ => []
                     end) es.

(** A property value that has been touched by writes only: starting from
    [V0], every value pushed since is among the written values [ws], and
    the visible value is the one of [V0] or one of [ws]. *)
Definition from_writes (V0 V : Value) (ws : list PyVal) : Prop :=
  (exists l, pushed V = l ++ pushed V0 /\ incl l ws)
  /\ (last_value V = last_value V0 \/ In (last_value V) ws).

(** ** The Things' identity and the property metadata *)

Module Construct.

(** What [webthing.Thing.__init__(id_, title, type_, description)] is
    given. *)
Record Thing : Type := {
  id : str;
  title : str;
  type_ : list str;
  description : str
}.

(** The two further attributes of a [Daikin] handle that the constructors
    read, each with one request: the appliance's model and its name. *)
Class Info (Dev : Type) : Type := {
  type : Dev -> option str * Dev;
  name : Dev -> option str * Dev
}.

(** [f"urn:daikin:{self.ip_addr}"] and the other arguments of
    [Thing.__init__] in [DaikinAC.__init__]. *)
Definition DaikinAC_thing (ip_addr actype acname : str) : Thing :=
  {| id := lit "urn:daikin:" ++ ip_addr;
     title := lit "Daikin " ++ actype ++ lit " " ++ acname;
     type_ := [lit "Thermostat"; lit "OnOffSwitch"];
     description := lit "Daikin " ++ actype ++ lit " " ++ acname |}.

(** The same in [DaikinCondenser.__init__]. *)
Definition DaikinCondenser_thing (ip_addr actype acname : str) : Thing :=
  {| id := lit "urn:daikin:" ++ ip_addr ++ lit ":condenser";
     title := lit "Daikin " ++ actype ++ lit " Condenser";
     type_ := [lit "TemperatureSensor"];
     description := lit "Daikin " ++ actype
                    ++ lit " Condenser, accessed via " ++ acname |}.

(** [DaikinAC.__init__]: the model and the name are read from the
    appliance; then the Thing, its values and its update task are set up. A
    failed read raises out of the constructor. *)
Definition DaikinAC_init {Dev} {info : Info Dev} (ip_addr : str) (d : Dev)
  : outcome (Thing * world Dev DaikinAC.Values) * Dev :=
  match type d with
  | (None, d1) => (Raise ReadError, d1)
  | (Some actype, d1) =>
      match name d1 with
      | (None, d2) => (Raise ReadError, d2)
      | (Some acname, d2) =>
          (Return (DaikinAC_thing ip_addr actype acname, DaikinAC.init d2),
           d2)
      end
  end.

(** [DaikinCondenser.__init__] *)
Definition DaikinCondenser_init {Dev} {info : Info Dev} (ip_addr : str)
           (d : Dev)
  : outcome (Thing * world Dev DaikinCondenser.Values) * Dev :=
  match type d with
  | (None, d1) => (Raise ReadError, d1)
  | (Some actype, d1) =>
      match name d1 with
      | (None, d2) => (Raise ReadError, d2)
      | (Some acname, d2) =>
          (Return (DaikinCondenser_thing ip_addr actype acname,
                   DaikinCondenser.init d2),
           d2)
      end
  end.

(** The ["enum"] of the [mode] property's metadata. *)
Definition mode_enum : list string :=
  ["off"; "auto"; "cool"; "heat"; "dehumid"; "fan"]%string.

End Construct.

(** ** [run_server] *)

Module Fleet.

(** A Thing without the appliance it talks to. *)
Record thing (Props : Type) : Type := {
  values : Props;
  update_task : task;
  seconds_slept : Z
}.
Arguments values {Props} t.
Arguments update_task {Props} t.
Arguments seconds_slept {Props} t.

(** The four Things of [run_server] and the three appliances they address:
    the office unit and the condenser both talk to 192.168.13.30, the
    kitchen unit to .31 and the bedroom unit to .32. [serving] tells whether
    the server has not been stopped. *)
Record fleet (Dev : Type) : Type := {
  unit30 : Dev;
  unit31 : Dev;
  unit32 : Dev;
  office_daikin : thing DaikinAC.Values;
  kitchen_daikin : thing DaikinAC.Values;
  bedroom_daikin : thing DaikinAC.Values;
  daikin_condenser : thing DaikinCondenser.Values;
  serving : bool
}.
Arguments unit30 {Dev} f.
Arguments unit31 {Dev} f.
Arguments unit32 {Dev} f.
Arguments office_daikin {Dev} f.
Arguments kitchen_daikin {Dev} f.
Arguments bedroom_daikin {Dev} f.
Arguments daikin_condenser {Dev} f.
Arguments serving {Dev} f.

Section WithClient.
Context {Dev : Type} {client : Daikin.Client Dev}.
Variable DEBUG : bool.

Definition join {Props} (d : Dev) (t : thing Props) : world Dev Props :=
  {| device := d; props := values t;
     sensor_update_task := update_task t; slept := seconds_slept t |}.

Definition part {Props} (w : world Dev Props) : thing Props :=
  {| values := props w; update_task := sensor_update_task w;
     seconds_slept := slept w |}.

Definition put_office (w : world Dev DaikinAC.Values) (f : fleet Dev)
  : fleet Dev :=
  {| unit30 := device w; unit31 := unit31 f; unit32 := unit32 f;
     office_daikin := part w; kitchen_daikin := kitchen_daikin f;
     bedroom_daikin := bedroom_daikin f;
     daikin_condenser := daikin_condenser f; serving := serving f |}.

Definition put_kitchen (w : world Dev DaikinAC.Values) (f : fleet Dev)
  : fleet Dev :=
  {| unit30 := unit30 f; unit31 := device w; unit32 := unit32 f;
     office_daikin := office_daikin f; kitchen_daikin := part w;
     bedroom_daikin := bedroom_daikin f;
     daikin_condenser := daikin_condenser f; serving := serving f |}.

Definition put_bedroom (w : world Dev DaikinAC.Values) (f : fleet Dev)
  : fleet Dev :=
  {| unit30 := unit30 f; unit31 := unit31 f; unit32 := device w;
     office_daikin := office_daikin f; kitchen_daikin := kitchen_daikin f;
     bedroom_daikin := part w;
     daikin_condenser := daikin_condenser f; serving := serving f |}.

Definition put_condenser (w : world Dev DaikinCondenser.Values)
           (f : fleet Dev) : fleet Dev :=
  {| unit30 := device w; unit31 := unit31 f; unit32 := unit32 f;
     office_daikin := office_daikin f; kitchen_daikin := kitchen_daikin f;
     bedroom_daikin := bedroom_daikin f;
     daikin_condenser := part w; serving := serving f |}.

(** A method of one Thing, run within the fleet. *)
Definition on {Props A} (get : fleet Dev -> world Dev Props)
           (put : world Dev Props -> fleet Dev -> fleet Dev)
           (c : M (world Dev Props) A) : M (fleet Dev) A :=
  fun f =>
    match c (get f) with
    | (r, w') => (r, put w' f)
    end.

Definition office (f : fleet Dev) := join (unit30 f) (office_daikin f).
Definition kitchen (f : fleet Dev) := join (unit31 f) (kitchen_daikin f).
Definition bedroom (f : fleet Dev) := join (unit32 f) (bedroom_daikin f).
Definition condenser (f : fleet Dev) := join (unit30 f) (daikin_condenser f).

(** [server.stop()] *)
Definition server_stop : M (fleet Dev) unit :=
  modify (fun f =>
    {| unit30 := unit30 f; unit31 := unit31 f; unit32 := unit32 f;
       office_daikin := office_daikin f; kitchen_daikin := kitchen_daikin f;
       bedroom_daikin := bedroom_daikin f;
       daikin_condenser := daikin_condenser f; serving := false |}).

(** What the event loop, which all four update tasks and the server
    share, may run for the Things: an event of one of the three indoor
    units or of the condenser. *)
Inductive unit_name : Type := Office | Kitchen | Bedroom.

Inductive activity : Type :=
| AtUnit (u : unit_name) (e : DaikinAC.event)
| AtCondenser (e : DaikinCondenser.event).

(** Only the interrupt handler cancels a task: the loop itself starts
    tasks, lets sleeps run out and serves writes. *)
Definition spontaneous (a : activity) : bool :=
  match a with
  | AtUnit _ DaikinAC.Shutdown => false
  | AtCondenser DaikinCondenser.Shutdown => false
  | _ => true
  end.

Definition happen (a : activity) (f : fleet Dev) : fleet Dev :=
  match a with
  | AtUnit Office e => snd (on office put_office (DaikinAC.step DEBUG e) f)
  | AtUnit Kitchen e =>
      snd (on kitchen put_kitchen (DaikinAC.step DEBUG e) f)
  | AtUnit Bedroom e =>
      snd (on bedroom put_bedroom (DaikinAC.step DEBUG e) f)
  | AtCondenser e =>
      snd (on condenser put_condenser (DaikinCondenser.step DEBUG e) f)
  end.

Fixpoint run_loop (acts : list activity) (f : fleet Dev) : fleet Dev :=
  match acts with
  | [] => f
  | a :: acts' => run_loop acts' (happen a f)
  end.

(** [task.cancel()] and [run_until_complete(task)] within the fleet.
    [run_until_complete] runs the shared event loop until the cancelled
    task is finished; [meanwhile] is what that loop runs for the Things
    besides. Only then is the task's result handed back, or its exception
    raised. The cancelled task is finished when the other activity runs,
    so this activity cannot make it poll. *)
Definition joined (cancel : M (fleet Dev) unit) (meanwhile : list activity)
  : M (fleet Dev) unit :=
  fun f =>
    match cancel f with
    | (r, f') => (r, run_loop meanwhile f')
    end.

(** The [except KeyboardInterrupt:] handler of [run_server]: the four
    update tasks are cancelled and awaited in turn, then the server is
    stopped. An exception raised on the way leaves the handler. The four
    lists say what the event loop runs besides during each wait. *)
Definition keyboard_interrupt (m1 m2 m3 m4 : list activity)
  : M (fleet Dev) unit :=
  joined (on office put_office (DaikinAC.cancel_update_level_task DEBUG))
         m1 ;;
  joined (on kitchen put_kitchen (DaikinAC.cancel_update_level_task DEBUG))
         m2 ;;
  joined (on bedroom put_bedroom (DaikinAC.cancel_update_level_task DEBUG))
         m3 ;;
  joined (on condenser put_condenser
            (DaikinCondenser.cancel_update_level_task DEBUG))
         m4 ;;
  server_stop.

End WithClient.

(** Whether cancelling and awaiting a task in this state returns. *)
Definition cancellable (t : task) : bool :=
  match t with
  | Sleeping | Done => true
  | Created | Failed _ => false
  end.

(** The state a cancellable task is left in. *)
Definition cancelled {Props} (t : thing Props) : thing Props :=
  {| values := values t; update_task := Done;
     seconds_slept := seconds_slept t |}.

(** A fleet on simulated appliances with every update task asleep. *)
Definition asleep : fleet appliance :=
  {| unit30 := cooling; unit31 := cooling; unit32 := cooling;
     office_daikin := part (with_task Sleeping (DaikinAC.init cooling));
     kitchen_daikin := part (with_task Sleeping (DaikinAC.init cooling));
     bedroom_daikin := part (with_task Sleeping (DaikinAC.init cooling));
     daikin_condenser :=
       part (with_task Sleeping (DaikinCondenser.init cooling));
     serving := true |}.

(** The same fleet with the appliance of the kitchen unit about to fail
    its next request. *)
Definition kitchen_unreachable : fleet appliance :=
  {| unit30 := cooling; unit31 := with_outage 1 cooling; unit32 := cooling;
     office_daikin := office_daikin asleep;
     kitchen_daikin := kitchen_daikin asleep;
     bedroom_daikin := bedroom_daikin asleep;
     daikin_condenser := daikin_condenser asleep;
     serving := true |}.

(** The same fleet after the kitchen unit's update task has ended with a
    read error. *)
Definition kitchen_lost : fleet appliance :=
  put_kitchen (with_task (Failed ReadError) (DaikinAC.init cooling)) asleep.

End Fleet.

(** * Properties *)

(** ** The translation functions *)

Lemma ascii_numeric_is_digit (c : N) :
  (c < 128)%N -> unicode_numeric c = ascii_digit c.
Proof.
  intros Hc.
  assert (Hall : forallb (fun n => Bool.eqb (unicode_numeric n) (ascii_digit n))
                   (map N.of_nat (seq 0 128)) = true)
    by (vm_compute; reflexivity).
  rewrite forallb_forall in Hall.
  apply Bool.eqb_prop, Hall.
  rewrite in_map_iff. exists (N.to_nat c). split.
  - apply N2Nat.id.
  - apply in_seq. lia.
Qed.

Lemma ascii_digit_below_128 (c : N) : ascii_digit c = true -> (c < 128)%N.
Proof.
  unfold ascii_digit. intros H. apply andb_prop in H as [_ H].
  apply N.leb_le in H. lia.
Qed.

Lemma ascii_digit_numeric (c : N) :
  ascii_digit c = true -> unicode_numeric c = true.
Proof.
  intros H. rewrite ascii_numeric_is_digit; [exact H|].
  now apply ascii_digit_below_128.
Qed.

Lemma isnumeric_spec (s : str) :
  isnumeric s = true
  <-> s <> [] /\ Forall (fun c => unicode_numeric c = true) s.
Proof.
  destruct s as [|c s]; simpl.
  - split; [discriminate | intros [H _]; now elim H].
  - rewrite andb_true_iff, forallb_forall, Forall_forall. split.
    + intros [Hc Hs]. split; [discriminate|].
      intros x [<-|Hx]; auto.
    + intros [_ H]. split; [apply H; now left|].
      intros x Hx. apply H. now right.
Qed.

Lemma forallb_numeric_ascii (s : str) :
  Forall (fun c => (c < 128)%N) s ->
  forallb unicode_numeric s = digits_only s.
Proof.
  unfold digits_only.
  induction 1 as [|d l Hd _ IH]; [reflexivity|].
  simpl. now rewrite IH, ascii_numeric_is_digit.
Qed.

Lemma isnumeric_ascii (s : str) :
  Forall (fun c => (c < 128)%N) s ->
  isnumeric s = match s with
                | [] => false
                | _ :: _ => digits_only s
                end.
Proof.
  intros Hs. destruct s as [|c s]; [reflexivity|].
  unfold isnumeric. now apply forallb_numeric_ascii.
Qed.

Lemma py_eq_int (a b : Z) : py_eq (PyInt a) (PyInt b) = (a =? b).
Proof.
  unfold py_eq, num_of, num_eqb, Qeq_bool. cbn [Qnum Qden].
  now rewrite !Z.mul_1_r.
Qed.

(** C3. The poll-side translation of power flag and mode code is a total
    function and agrees with the reference table on all integer inputs:
    power 0 gives "off" for every mode code; otherwise 2, 3, 4 and 6 give
    "dehumid", "cool", "heat" and "fan", and every other code gives "auto".
    Its result is always one of the six mode names. *)
Theorem decode_mode_table (power mode : Z) :
  decode_mode (PyInt power) (PyInt mode)
  = mode_name (decode_mode_spec power mode)
  /\ decode_mode (PyInt 0) (PyInt mode) = "off"%string
  /\ In (decode_mode (PyInt power) (PyInt mode))
        (map mode_name [Off; Auto; Cool; Heat; Dehumidify; Fan]).
Proof.
  assert (H : decode_mode (PyInt power) (PyInt mode)
              = mode_name (decode_mode_spec power mode)).
  { unfold decode_mode, decode_mode_spec. rewrite !py_eq_int.
    destruct (Z.eqb_spec power 0) as [->|Hp]; [reflexivity|].
    destruct power as [|p|p]; [now elim Hp| |];
      (destruct (Z.eqb_spec mode 2) as [->|H2]; [reflexivity|];
       destruct (Z.eqb_spec mode 3) as [->|H3]; [reflexivity|];
       destruct (Z.eqb_spec mode 4) as [->|H4]; [reflexivity|];
       destruct (Z.eqb_spec mode 6) as [->|H6]; [reflexivity|];
       destruct mode as [|m|m]; try reflexivity;
       do 3 (try (destruct m as [m|m|]; try reflexivity; try congruence))). }
  split; [exact H|]. split; [reflexivity|].
  rewrite H. destruct (decode_mode_spec power mode); simpl; tauto.
Qed.

(** The four sample values: 21.5 and "21" pass the test, "N/A" and "21.5"
    do not. *)
Lemma is_numeric_samples :
  is_numeric f21_5 = true
  /\ is_numeric (PyStr (lit "21")) = true
  /\ is_numeric (PyStr (lit "N/A")) = false
  /\ is_numeric (PyStr (lit "21.5")) = false.
Proof. repeat split; vm_compute; reflexivity. Qed.

(** C4, as it holds. The test accepts exactly the numbers ([int], [float],
    and [bool], which is an [int]) and the non-empty strings all of whose
    characters are Unicode numeric characters; among the strings of ASCII
    characters these are the non-empty strings of decimal digits, so signs
    and decimal points are rejected. The four sample values come out as
    stated. *)
Theorem is_numeric_characterised (v : PyVal) :
  (is_numeric v = true <->
     isinstance_int_float v = true
     \/ exists s, v = PyStr s /\ s <> []
                  /\ Forall (fun c => unicode_numeric c = true) s)
  /\ (forall s, Forall (fun c => (c < 128)%N) s ->
        (is_numeric (PyStr s) = true <-> s <> [] /\ digits_only s = true))
  /\ is_numeric f21_5 = true
  /\ is_numeric (PyStr (lit "21")) = true
  /\ is_numeric (PyStr (lit "N/A")) = false
  /\ is_numeric (PyStr (lit "21.5")) = false.
Proof.
  split; [|split; [|exact is_numeric_samples]].
  - unfold is_numeric. rewrite orb_true_iff. split.
    + intros [H|H]; [now left|]. right.
      destruct v; try discriminate. exists s. split; [reflexivity|].
      now apply isnumeric_spec.
    + intros [H|(s & -> & H)]; [now left|]. right. now apply isnumeric_spec.
  - intros s Hs. unfold is_numeric. simpl isinstance_int_float.
    rewrite orb_false_l, (isnumeric_ascii s Hs).
    destruct s as [|c s]; split.
    + discriminate.
    + intros [H _]. now elim H.
    + intros H. split; [discriminate | exact H].
    + intros [_ H]. exact H.
Qed.

(** C4, as stated, fails: the one-character string made of U+00BD (vulgar
    fraction one half) is neither a number nor made of decimal digits, yet
    it passes the test. *)
Lemma is_numeric_accepts_one_half :
  is_numeric (PyStr [189%N]) = true
  /\ isinstance_int_float (PyStr [189%N]) = false
  /\ digits_only [189%N] = false.
Proof. repeat split; vm_compute; reflexivity. Qed.

(** C5. Round trip of the mode translation. For each of the six modes,
    [set_tmode] called with the mode's name assigns one attribute, and the
    poll-side translation gives the name back: applied to the pair of power
    and mode code to set (one of them absent), and applied to the power flag
    and mode code an appliance has after the assignment, for Off whatever
    its mode code is and for the other five with its power flag (which
    their assignment leaves alone) non-zero. Off assigns power 0, Auto
    assigns mode code 1, and power 1 with mode code 1 decodes to "auto". *)
Theorem mode_round_trip (t : SemanticMode) :
  decode_mode (fst (encoded_pair (encode_mode (PyStr (lit (mode_name t))))))
              (snd (encoded_pair (encode_mode (PyStr (lit (mode_name t))))))
  = mode_name t
  /\ (forall power0 mode0 : Z,
        t = Off \/ power0 <> 0 ->
        decode_mode
          (PyInt (fst (commanded (encode_mode (PyStr (lit (mode_name t))))
                                 (power0, mode0))))
          (PyInt (snd (commanded (encode_mode (PyStr (lit (mode_name t))))
                                 (power0, mode0))))
        = mode_name t)
  /\ encode_mode (PyStr (lit (mode_name Off))) = AssignPower 0
  /\ encode_mode (PyStr (lit (mode_name Auto))) = AssignMode 1
  /\ decode_mode (PyInt 1) (PyInt 1) = mode_name Auto.
Proof.
  split; [|split; [|repeat split]].
  - destruct t; vm_compute; reflexivity.
  - intros power0 mode0 H.
    destruct t;
      match goal with
      | |- context [encode_mode ?v] =>
          let c := eval vm_compute in (encode_mode v) in
          change (encode_mode v) with c
      end; cbn [commanded fst snd]; unfold decode_mode; rewrite !py_eq_int;
      try reflexivity;
      (destruct H as [H|H]; [discriminate|]);
      (destruct (Z.eqb_spec power0 0); [contradiction|reflexivity]).
Qed.

Lemma mode_round_trip_witness :
  (Cool = Off \/ 1 <> 0)
  /\ decode_mode
       (PyInt (fst (commanded (encode_mode (PyStr (lit (mode_name Cool))))
                              (1, 4))))
       (PyInt (snd (commanded (encode_mode (PyStr (lit (mode_name Cool))))
                              (1, 4))))
     = mode_name Cool.
Proof.
  assert (H : Cool = Off \/ 1 <> 0) by (right; lia).
  split; [exact H|].
  exact (proj1 (proj2 (mode_round_trip Cool)) 1 4 H).
Defined.

(** ** Frame lemmas for the effects *)

#[local] Arguments decode_mode : simpl never.
#[local] Arguments is_numeric : simpl never.
#[local] Arguments lit : simpl never.
#[local] Arguments notify_of_external_update : simpl never.
#[local] Arguments Z.add : simpl never.

Lemma same_thing_fields {Dev Props} (w w' : world Dev Props) :
  same_thing w w' ->
  props w' = props w
  /\ sensor_update_task w' = sensor_update_task w
  /\ slept w' = slept w.
Proof. intros [d ->]. now repeat split. Qed.

Lemma daikin_get_same_thing {Dev Props A} (rd : Dev -> option A * Dev)
      (w : world Dev Props) r w' :
  daikin_get rd w = (r, w') ->
  same_thing w w' /\ (forall e, r = Raise e -> e = ReadError).
Proof.
  unfold daikin_get. destruct (rd (device w)) as [[v|] d]; intros [= <- <-];
    (split; [now exists d | congruence]).
Qed.

Lemma daikin_set_same_thing {Dev Props} (wr : Dev -> bool * Dev)
      (w : world Dev Props) r w' :
  daikin_set wr w = (r, w') ->
  same_thing w w' /\ (forall e, r = Raise e -> e = WriteError).
Proof.
  unfold daikin_set. destruct (wr (device w)) as [[|] d]; intros [= <- <-];
    (split; [now exists d | congruence]).
Qed.

Section ACLemmas.
Context {Dev : Type} {client : Daikin.Client Dev}.
Variable DEBUG : bool.

Lemma rest_of_poll_cases (in_temp tgt_temp : PyVal)
      (w : world Dev DaikinAC.Values) r w' :
  DaikinAC.rest_of_poll DEBUG in_temp tgt_temp w = (r, w') ->
  (r = Raise ReadError /\ same_thing w w')
  \/ (r = Return tt
      /\ exists d0 d1 d mode power,
           Daikin.power d0 = (Some power, d1)
           /\ w' = with_props
                     (DaikinAC.notified in_temp tgt_temp mode power (props w))
                     (with_device d w)).
Proof.
  unfold DaikinAC.rest_of_poll, bind, daikin_get.
  destruct (Daikin.mode (device w)) as [[mode|] d1] eqn:E1; simpl;
    [|intros [= <- <-]; left; split; [reflexivity | now exists d1]].
  destruct (Daikin.power d1) as [[power|] d2] eqn:E2; simpl;
    [|intros [= <- <-]; left; split; [reflexivity | now exists d2]].
  destruct (Daikin.power d2) as [[power'|] d3] eqn:E3; simpl;
    [|intros [= <- <-]; left; split; [reflexivity | now exists d3]].
  destruct (Daikin.mode d3) as [[mode'|] d4] eqn:E4; simpl;
    [|intros [= <- <-]; left; split; [reflexivity | now exists d4]].
  destruct DEBUG; simpl.
  - destruct (Daikin.power d4) as [[power''|] d5] eqn:E5; simpl;
      [|intros [= <- <-]; left; split; [reflexivity | now exists d5]].
    destruct (Daikin.mode d5) as [[mode''|] d6] eqn:E6; simpl;
      [|intros [= <- <-]; left; split; [reflexivity | now exists d6]].
    unfold DaikinAC.notified, DaikinAC.notify, modify, ret.
    destruct (is_numeric in_temp), (is_numeric tgt_temp); simpl;
      intros [= <- <-]; right; (split; [reflexivity|]);
      now exists d1, d2, d6, mode, power.
  - unfold DaikinAC.notified, DaikinAC.notify, modify, ret.
    destruct (is_numeric in_temp), (is_numeric tgt_temp); simpl;
      intros [= <- <-]; right; (split; [reflexivity|]);
      now exists d1, d2, d4, mode, power.
Qed.

End ACLemmas.

(** ** One turn of an update loop *)

Section Loop.
Context {Dev Props : Type}.
Variable body : M (world Dev Props) unit.

Lemma turn_elapsed (w : world Dev Props) :
  resume (loop_turn body) Elapsed w =
  match body (after_sleep w) with
  | (Return _, w') => with_task Sleeping w'
  | (Raise e, w') =>
      with_task (if is_CancelledError e then Done else Failed e) w'
  end.
Proof.
  unfold resume, loop_turn, try_except_CancelledError, bind, await_sleep,
    modify, after_sleep, ret.
  destruct (body _) as [[[]|e] w']; [reflexivity|].
  destruct (is_CancelledError e); reflexivity.
Qed.

Lemma turn_cancelled (w : world Dev Props) :
  resume (loop_turn body) Cancelled w = with_task Done w.
Proof. reflexivity. Qed.

Lemma cancel_sleeping (w : world Dev Props) :
  sensor_update_task w = Sleeping ->
  cancel_and_run_until_complete (loop_turn body) w
  = (Return tt, with_task Done w).
Proof.
  intros H. unfold cancel_and_run_until_complete. rewrite H, turn_cancelled.
  reflexivity.
Qed.

Lemma cancel_finished (w : world Dev Props) :
  done (sensor_update_task w) = true ->
  snd (cancel_and_run_until_complete (loop_turn body) w) = w.
Proof.
  unfold cancel_and_run_until_complete.
  destruct (sensor_update_task w) eqn:E; try discriminate; reflexivity.
Qed.

End Loop.

Lemma cancel_outcome {Dev Props} (body : M (world Dev Props) unit)
      (w : world Dev Props) :
  cancel_and_run_until_complete (loop_turn body) w
  = match sensor_update_task w with
    | Created =>
        (Raise CancelledError, with_task (Failed CancelledError) w)
    | Sleeping => (Return tt, with_task Done w)
    | Done => (Return tt, w)
    | Failed e => (Raise e, w)
    end.
Proof.
  unfold cancel_and_run_until_complete.
  destruct (sensor_update_task w) eqn:E.
  - reflexivity.
  - rewrite turn_cancelled. reflexivity.
  - now rewrite E.
  - now rewrite E.
Qed.

(** ** DaikinAC: the update loop *)

Section ACLoop.
Context {Dev : Type} {client : Daikin.Client Dev}.
Variable DEBUG : bool.

(** A poll either raises the error of a failed read before anything is
    notified, or returns with all its notifications made. *)
Lemma ac_poll_cases (w : world Dev DaikinAC.Values) r w' :
  DaikinAC.poll DEBUG w = (r, w') ->
  (r = Raise ReadError /\ same_thing w w')
  \/ (r = Return tt
      /\ exists in_temp tgt_temp mode power d d0 d1 d2,
           Daikin.inside_temperature (device w) = (Some in_temp, d0)
           /\ Daikin.power d1 = (Some power, d2)
           /\ w' = with_props
                     (DaikinAC.notified in_temp tgt_temp mode power (props w))
                     (with_device d w)).
Proof.
  unfold DaikinAC.poll, bind, try_except.
  destruct (daikin_get Daikin.inside_temperature w) as [[in_temp|e] w1] eqn:E1.
  2:{ intros [= <- <-]. apply daikin_get_same_thing in E1 as [Hs He].
      left. now rewrite (He e eq_refl). }
  assert (Hin : exists d0, Daikin.inside_temperature (device w)
                           = (Some in_temp, d0) /\ w1 = with_device d0 w).
  { revert E1. unfold daikin_get.
    destruct (Daikin.inside_temperature (device w)) as [[v|] d0];
      intros [= <- <-]. now exists d0. }
  destruct Hin as (d0 & Hin & ->).
  destruct (daikin_get Daikin.target_temperature (with_device d0 w))
    as [[tgt|e] w2] eqn:E2.
  - apply daikin_get_same_thing in E2 as [[d2 ->] _]. intros H.
    apply rest_of_poll_cases in H
      as [[-> [d ->]]|(-> & dd0 & dd1 & d & m & p & Hp & ->)].
    + left. split; [reflexivity | now exists d].
    + right. split; [reflexivity|].
      now exists in_temp, tgt, m, p, d, d0, dd0, dd1.
  - apply daikin_get_same_thing in E2 as [[d2 ->] _]. unfold ret. intros H.
    apply rest_of_poll_cases in H
      as [[-> [d ->]]|(-> & dd0 & dd1 & d & m & p & Hp & ->)].
    + left. split; [reflexivity | now exists d].
    + right. split; [reflexivity|].
      now exists in_temp, PyNone, m, p, d, d0, dd0, dd1.
Qed.

Lemma ac_update_level_elapsed (w : world Dev DaikinAC.Values) :
  resume (DaikinAC.update_level DEBUG) Elapsed w =
  match DaikinAC.poll DEBUG (after_sleep w) with
  | (Return _, w') => with_task Sleeping w'
  | (Raise e, w') =>
      with_task (if is_CancelledError e then Done else Failed e) w'
  end.
Proof. exact (turn_elapsed (DaikinAC.poll DEBUG) w). Qed.

(** What the running out of a sleep does to a sleeping task. *)
Lemma ac_sleep_elapsed_cases (w : world Dev DaikinAC.Values) :
  sensor_update_task w = Sleeping ->
  let w1 := snd (DaikinAC.step DEBUG DaikinAC.SleepElapsed w) in
  (exists d, w1 = with_task (Failed ReadError) (with_device d (after_sleep w)))
  \/ (exists in_temp tgt_temp mode power d d0 d1 d2,
        Daikin.inside_temperature (device w) = (Some in_temp, d0)
        /\ Daikin.power d1 = (Some power, d2)
        /\ w1 = with_task Sleeping
                  (with_props
                     (DaikinAC.notified in_temp tgt_temp mode power (props w))
                     (with_device d (after_sleep w)))).
Proof.
  intros Ht. unfold DaikinAC.step. rewrite Ht. cbn [snd].
  rewrite ac_update_level_elapsed.
  destruct (DaikinAC.poll DEBUG (after_sleep w)) as [r w'] eqn:E.
  apply ac_poll_cases in E
    as [[-> [d ->]]|(-> & i & t & m & p & d & d0 & d1 & d2 & Hi & Hp & ->)].
  - left. now exists d.
  - right. now exists i, t, m, p, d, d0, d1, d2.
Qed.

(** A write callback changes at most the state of the appliance. *)
Lemma issue_same_thing (c : command) (w : world Dev DaikinAC.Values) :
  same_thing w (snd (DaikinAC.issue c w)).
Proof.
  destruct c; cbn [DaikinAC.issue];
    destruct (daikin_set _ w) as [r w'] eqn:E;
    now apply daikin_set_same_thing in E as [H _].
Qed.

Lemma issue_cases (c : command) (w : world Dev DaikinAC.Values) :
  exists d,
    DaikinAC.issue c w = (Raise WriteError, with_device d w)
    \/ DaikinAC.issue c w = (Return tt, with_device d w).
Proof.
  destruct c; cbn [DaikinAC.issue]; unfold daikin_set.
  - destruct (Daikin.set_target_temperature v (device w)) as [[|] d];
      exists d; (now left) || (now right).
  - destruct (Daikin.set_power p (device w)) as [[|] d];
      exists d; (now left) || (now right).
  - destruct (Daikin.set_mode m (device w)) as [[|] d];
      exists d; (now left) || (now right).
Qed.

(** A write either fails in its forwarder, and then nothing is notified,
    or it sends its command and notifies the written value. *)
Lemma value_set_cases (c : command)
      (f : PyVal -> DaikinAC.Values -> DaikinAC.Values)
      (v : PyVal) (w : world Dev DaikinAC.Values) :
  exists d,
    bind (DaikinAC.issue c) (fun _ => DaikinAC.notify f v) w
    = (Raise WriteError, with_device d w)
    \/ bind (DaikinAC.issue c) (fun _ => DaikinAC.notify f v) w
       = (Return tt, with_props (f v (props w)) (with_device d w)).
Proof.
  unfold bind. destruct (issue_cases c w) as [d [-> | ->]]; exists d;
    [now left | now right].
Qed.

(** Events other than the running out of a sleep change at most the state
    of the appliance, the state of the task, and the latter only while the
    task is not finished, and, when they are writes, the value of the
    property they write. *)
Lemma ac_step_frame (e : DaikinAC.event) (w : world Dev DaikinAC.Values) :
  e <> DaikinAC.SleepElapsed ->
  exists d t p,
    snd (DaikinAC.step DEBUG e w)
    = with_task t (with_props p (with_device d w))
    /\ (done (sensor_update_task w) = true -> t = sensor_update_task w)
    /\ match e with
       | DaikinAC.SetTargetTemperature v =>
           p = props w
           \/ p = DaikinAC.notify_target_temperature v (props w)
       | DaikinAC.SetPower v =>
           p = props w \/ p = DaikinAC.notify_power v (props w)
       | DaikinAC.SetMode v =>
           p = props w \/ p = DaikinAC.notify_thermo_mode v (props w)
       | _ => p = props w
       end.
Proof.
  intros He.
  assert (Hw : forall d p,
            with_task (sensor_update_task w) (with_props p (with_device d w))
            = with_props p (with_device d w)) by reflexivity.
  destruct e; try (now elim He); cbn [DaikinAC.step].
  - exists (device w). destruct w as [d p [] s]; cbn.
    + now exists Sleeping, p.
    + now exists Sleeping, p.
    + now exists Done, p.
    + now exists (Failed e), p.
  - unfold DaikinAC.Value_set, DaikinAC.set_tgt_temp.
    destruct (value_set_cases (AssignTargetTemperature v)
                DaikinAC.notify_target_temperature v w) as [d [-> | ->]];
      cbn [snd]; exists d, (sensor_update_task w); eexists;
      (split; [symmetry; apply Hw|]); (split; [reflexivity|]);
      [now left | now right].
  - unfold DaikinAC.Value_set, DaikinAC.set_power.
    destruct (value_set_cases (AssignPower (if truthy v then 1 else 0))
                DaikinAC.notify_power v w) as [d [-> | ->]];
      cbn [snd]; exists d, (sensor_update_task w); eexists;
      (split; [symmetry; apply Hw|]); (split; [reflexivity|]);
      [now left | now right].
  - unfold DaikinAC.Value_set, DaikinAC.set_tmode.
    destruct (value_set_cases (encode_mode v)
                DaikinAC.notify_thermo_mode v w) as [d [-> | ->]];
      cbn [snd]; exists d, (sensor_update_task w); eexists;
      (split; [symmetry; apply Hw|]); (split; [reflexivity|]);
      [now left | now right].
  - exists (device w).
    unfold DaikinAC.cancel_update_level_task, cancel_and_run_until_complete.
    destruct w as [d p [] s]; cbn.
    + now exists (Failed CancelledError), p.
    + now exists Done, p.
    + now exists Done, p.
    + now exists (Failed e), p.
Qed.

(** Only the running out of a sleep adds to the time slept, and only it and
    the writes change a property value. *)
Lemma ac_step_other (e : DaikinAC.event) (w : world Dev DaikinAC.Values) :
  e <> DaikinAC.SleepElapsed ->
  slept (snd (DaikinAC.step DEBUG e w)) = slept w
  /\ DaikinAC.room_temperature (props (snd (DaikinAC.step DEBUG e w)))
     = DaikinAC.room_temperature (props w)
  /\ (loop_event e = true -> props (snd (DaikinAC.step DEBUG e w)) = props w).
Proof.
  intros He. destruct (ac_step_frame e w He) as (d & t & p & -> & _ & Hp).
  cbn [slept props with_task with_props with_device].
  split; [reflexivity|]. split.
  - destruct e; try (now subst p); destruct Hp as [->| ->]; reflexivity.
  - intros Hl. destruct e; try discriminate; assumption.
Qed.

(** A task that is not sleeping is not woken by a timer. *)
Lemma ac_sleep_elapsed_idle (w : world Dev DaikinAC.Values) :
  sensor_update_task w <> Sleeping ->
  snd (DaikinAC.step DEBUG DaikinAC.SleepElapsed w) = w.
Proof.
  intros H. cbn [DaikinAC.step].
  destruct (sensor_update_task w); try reflexivity. now elim H.
Qed.

(** A finished task is never resumed: whatever happens, its state stays,
    no time is slept, no poll goes through and the read-only room
    temperature is not notified. *)
Lemma ac_finished_forever (es : list DaikinAC.event)
      (w : world Dev DaikinAC.Values) :
  done (sensor_update_task w) = true ->
  sensor_update_task (DaikinAC.run DEBUG es w) = sensor_update_task w
  /\ slept (DaikinAC.run DEBUG es w) = slept w
  /\ DaikinAC.room_temperature (props (DaikinAC.run DEBUG es w))
     = DaikinAC.room_temperature (props w)
  /\ DaikinAC.completed_polls DEBUG es w = O.
Proof.
  revert w. induction es as [|e es IH]; intros w Hw; [now repeat split|].
  cbn [DaikinAC.run DaikinAC.completed_polls].
  assert (H : sensor_update_task (snd (DaikinAC.step DEBUG e w))
              = sensor_update_task w
              /\ slept (snd (DaikinAC.step DEBUG e w)) = slept w
              /\ DaikinAC.room_temperature
                   (props (snd (DaikinAC.step DEBUG e w)))
                 = DaikinAC.room_temperature (props w)).
  { assert (Hdec : {e = DaikinAC.SleepElapsed} + {e <> DaikinAC.SleepElapsed})
      by (destruct e; (now left) || (right; discriminate)).
    destruct Hdec as [->|He].
    - rewrite ac_sleep_elapsed_idle; [now repeat split|].
      intros E. rewrite E in Hw. discriminate.
    - destruct (ac_step_other e w He) as (Hs & Hr & _).
      destruct (ac_step_frame e w He) as (d & t & p & Heq & Ht & _).
      repeat split; try assumption.
      rewrite Heq. cbn. now apply Ht. }
  destruct H as (Ht & Hs & Hr).
  assert (Hw' : done (sensor_update_task (snd (DaikinAC.step DEBUG e w)))
                = true) by now rewrite Ht.
  destruct (IH _ Hw') as (Ht' & Hs' & Hr' & Hc').
  assert (Hc : DaikinAC.completes_poll DEBUG e w = false).
  { unfold DaikinAC.completes_poll.
    destruct e; try reflexivity.
    destruct (sensor_update_task w); try reflexivity; discriminate. }
  rewrite Hc, Hc'. repeat split; congruence.
Qed.

(** Timer events, starts and cancellations leave a finished task, its
    Thing and its appliance as they are. *)
Lemma ac_finished_untouched (es : list DaikinAC.event)
      (w : world Dev DaikinAC.Values) :
  done (sensor_update_task w) = true ->
  forallb loop_event es = true ->
  DaikinAC.run DEBUG es w = w.
Proof.
  intros Hw. induction es as [|e es IH]; [reflexivity|].
  cbn [forallb DaikinAC.run]. rewrite andb_true_iff. intros [He Hes].
  assert (H : snd (DaikinAC.step DEBUG e w) = w).
  { destruct e; try discriminate; cbn [DaikinAC.step].
    - destruct (sensor_update_task w); try reflexivity; discriminate.
    - destruct (sensor_update_task w); try reflexivity; discriminate.
    - unfold DaikinAC.cancel_update_level_task,
        cancel_and_run_until_complete.
      destruct (sensor_update_task w) eqn:E; try discriminate;
        cbn [snd]; reflexivity. }
  rewrite H. now apply IH.
Qed.


Lemma ac_cancel_outcome (w : world Dev DaikinAC.Values) :
  DaikinAC.cancel_update_level_task DEBUG w
  = match sensor_update_task w with
    | Created =>
        (Raise CancelledError, with_task (Failed CancelledError) w)
    | Sleeping => (Return tt, with_task Done w)
    | Done => (Return tt, w)
    | Failed e => (Raise e, w)
    end.
Proof. exact (cancel_outcome (DaikinAC.poll DEBUG) w). Qed.

End ACLoop.

(** ** DaikinCondenser: the update loop *)

Section CondenserLoop.
Context {Dev : Type} {client : Daikin.Client Dev}.
Variable DEBUG : bool.

Lemma condenser_poll_eq (w : world Dev DaikinCondenser.Values) :
  DaikinCondenser.poll DEBUG w =
  match Daikin.outside_temperature (device w) with
  | (Some v, d) =>
      (Return tt,
       with_props (DaikinCondenser.notify_outside_temperature v (props w))
         (with_device d w))
  | (None, d) => (Raise ReadError, with_device d w)
  end.
Proof.
  unfold DaikinCondenser.poll, bind, daikin_get, DaikinCondenser.notify,
    modify, ret.
  destruct (Daikin.outside_temperature (device w)) as [[v|] d];
    destruct DEBUG; reflexivity.
Qed.

Lemma condenser_update_level_elapsed (w : world Dev DaikinCondenser.Values) :
  resume (DaikinCondenser.update_level DEBUG) Elapsed w =
  match DaikinCondenser.poll DEBUG (after_sleep w) with
  | (Return _, w') => with_task Sleeping w'
  | (Raise e, w') =>
      with_task (if is_CancelledError e then Done else Failed e) w'
  end.
Proof. exact (turn_elapsed (DaikinCondenser.poll DEBUG) w). Qed.

Lemma condenser_sleep_elapsed_eq (w : world Dev DaikinCondenser.Values) :
  sensor_update_task w = Sleeping ->
  snd (DaikinCondenser.step DEBUG DaikinCondenser.SleepElapsed w) =
  match Daikin.outside_temperature (device w) with
  | (Some v, d) =>
      with_task Sleeping
        (with_props (DaikinCondenser.notify_outside_temperature v (props w))
           (with_device d (after_sleep w)))
  | (None, d) => with_task (Failed ReadError) (with_device d (after_sleep w))
  end.
Proof.
  intros Ht. unfold DaikinCondenser.step. rewrite Ht. cbn [snd].
  rewrite condenser_update_level_elapsed, condenser_poll_eq.
  change (device (after_sleep w)) with (device w).
  destruct (Daikin.outside_temperature (device w)) as [[v|] d]; reflexivity.
Qed.

Lemma condenser_step_other (e : DaikinCondenser.event)
      (w : world Dev DaikinCondenser.Values) :
  e <> DaikinCondenser.SleepElapsed ->
  props (snd (DaikinCondenser.step DEBUG e w)) = props w
  /\ slept (snd (DaikinCondenser.step DEBUG e w)) = slept w.
Proof.
  intros He. destruct e; try (now elim He); cbn [DaikinCondenser.step].
  - destruct (sensor_update_task w); now split.
  - unfold DaikinCondenser.cancel_update_level_task,
      cancel_and_run_until_complete.
    destruct (sensor_update_task w); now split.
Qed.

Lemma condenser_sleep_elapsed_idle (w : world Dev DaikinCondenser.Values) :
  sensor_update_task w <> Sleeping ->
  snd (DaikinCondenser.step DEBUG DaikinCondenser.SleepElapsed w) = w.
Proof.
  intros H. cbn [DaikinCondenser.step].
  destruct (sensor_update_task w); try reflexivity. now elim H.
Qed.


Lemma condenser_cancel_outcome (w : world Dev DaikinCondenser.Values) :
  DaikinCondenser.cancel_update_level_task DEBUG w
  = match sensor_update_task w with
    | Created =>
        (Raise CancelledError, with_task (Failed CancelledError) w)
    | Sleeping => (Return tt, with_task Done w)
    | Done => (Return tt, w)
    | Failed e => (Raise e, w)
    end.
Proof. exact (cancel_outcome (DaikinCondenser.poll DEBUG) w). Qed.

End CondenserLoop.

(** ** The claims about the update loops *)

Section Claims.
Context {Dev : Type} {client : Daikin.Client Dev}.
Variable DEBUG : bool.


End Claims.



(** The indoor unit pushes a room temperature only when the value read
    passes the numeric test. *)
Lemma room_temperature_only_numeric {Dev} {client : Daikin.Client Dev}
      (DEBUG : bool) (w : world Dev DaikinAC.Values) :
  sensor_update_task w = Sleeping ->
  let w1 := snd (DaikinAC.step DEBUG DaikinAC.SleepElapsed w) in
  DaikinAC.room_temperature (props w1) = DaikinAC.room_temperature (props w)
  \/ exists v d,
       Daikin.inside_temperature (device w) = (Some v, d)
       /\ is_numeric v = true
       /\ DaikinAC.room_temperature (props w1)
          = notify_of_external_update v (DaikinAC.room_temperature (props w)).
Proof.
  intros Hw w1.
  destruct (ac_sleep_elapsed_cases DEBUG w Hw)
    as [[d H]|(i & t & m & p & d & d0 & d1 & d2 & Hi & _ & H)];
    fold w1 in H; rewrite H; [now left|].
  cbn [props with_task with_props]. unfold DaikinAC.notified.
  destruct (is_numeric i) eqn:Ei.
  - right. exists i, d0. repeat split; try assumption.
    destruct (is_numeric t); reflexivity.
  - left. destruct (is_numeric t); reflexivity.
Qed.

(** C2 at the failing input. The appliance reports the outside temperature
    as the string "N/A", which does not pass the numeric test; the
    condenser's poll pushes it all the same and it becomes the visible
    value of [outside_temperature]. *)
Theorem condenser_pushes_non_numeric :
  is_numeric (PyStr (lit "N/A")) = false
  /\ DaikinCondenser.outside_temperature
       (props Scenario.condenser_not_available)
     = {| last_value := PyStr (lit "N/A"); pushed := [PyStr (lit "N/A")] |}.
Proof. split; vm_compute; reflexivity. Qed.

Section MoreClaims.
Context {Dev : Type} {client : Daikin.Client Dev}.
Variable DEBUG : bool.


(** C7. The three write callbacks only send a command to the appliance:
    the target temperature as given, power 1 or 0 by the truth value of
    the argument, and the assignment chosen by the mode name. Whatever the
    argument and whether or not the write succeeds, the world afterwards
    differs at most in the state of the appliance: no property value is
    notified or changed, and the update task is left alone. *)
Theorem write_callbacks_leave_properties
        (v : PyVal) (w : world Dev DaikinAC.Values) :
  snd (DaikinAC.set_tgt_temp v w)
  = with_device (snd (Daikin.set_target_temperature v (device w))) w
  /\ snd (DaikinAC.set_power v w)
     = with_device
         (snd (Daikin.set_power (if truthy v then 1 else 0) (device w))) w
  /\ same_thing w (snd (DaikinAC.set_tmode v w))
  /\ props (snd (DaikinAC.set_tgt_temp v w)) = props w
  /\ props (snd (DaikinAC.set_power v w)) = props w
  /\ props (snd (DaikinAC.set_tmode v w)) = props w.
Proof.
  assert (Hm : same_thing w (snd (DaikinAC.set_tmode v w)))
    by apply issue_same_thing.
  assert (Ht : snd (DaikinAC.set_tgt_temp v w)
               = with_device
                   (snd (Daikin.set_target_temperature v (device w))) w).
  { unfold DaikinAC.set_tgt_temp, DaikinAC.issue, daikin_set.
    now destruct (Daikin.set_target_temperature v (device w)). }
  assert (Hp : snd (DaikinAC.set_power v w)
               = with_device
                   (snd (Daikin.set_power (if truthy v then 1 else 0)
                           (device w))) w).
  { unfold DaikinAC.set_power, DaikinAC.issue, daikin_set.
    now destruct (Daikin.set_power _ (device w)). }
  repeat split; try assumption.
  - now rewrite Ht.
  - now rewrite Hp.
  - now destruct Hm as [d ->].
Qed.

(** C8, as it holds. Whether [cancel_update_level_task] raises depends on
    the state of the update task. If the task is suspended in its sleep
    (the first sleep or one between two polls), the cancellation is
    delivered at the [await], the coroutine absorbs it and returns, the
    task completes normally and the call returns without an exception and
    without touching anything else; if the task has already returned, the
    call returns as well. These are the only states in which it returns:
    for a task that has never run it raises [CancelledError], and for a
    task that has ended with an exception it raises that exception. This
    holds for both Things. *)
Theorem cancel_outcome_by_task_state :
  (forall w : world Dev DaikinAC.Values,
     (sensor_update_task w = Sleeping ->
      DaikinAC.cancel_update_level_task DEBUG w
      = (Return tt, with_task Done w))
     /\ (sensor_update_task w = Done ->
         DaikinAC.cancel_update_level_task DEBUG w = (Return tt, w))
     /\ (fst (DaikinAC.cancel_update_level_task DEBUG w) = Return tt
         <-> sensor_update_task w = Sleeping \/ sensor_update_task w = Done)
     /\ (forall e,
           fst (DaikinAC.cancel_update_level_task DEBUG w) = Raise e
           <-> (sensor_update_task w = Created /\ e = CancelledError)
               \/ sensor_update_task w = Failed e))
  /\ (forall w : world Dev DaikinCondenser.Values,
        (sensor_update_task w = Sleeping ->
         DaikinCondenser.cancel_update_level_task DEBUG w
         = (Return tt, with_task Done w))
        /\ (sensor_update_task w = Done ->
            DaikinCondenser.cancel_update_level_task DEBUG w
            = (Return tt, w))
        /\ (fst (DaikinCondenser.cancel_update_level_task DEBUG w)
            = Return tt
            <-> sensor_update_task w = Sleeping
                \/ sensor_update_task w = Done)
        /\ (forall e,
              fst (DaikinCondenser.cancel_update_level_task DEBUG w)
              = Raise e
              <-> (sensor_update_task w = Created /\ e = CancelledError)
                  \/ sensor_update_task w = Failed e)).
Proof.
  split; intros w;
    [rewrite ac_cancel_outcome | rewrite condenser_cancel_outcome];
    (destruct (sensor_update_task w) as [| | |x] eqn:E;
     (split; [intros H; try discriminate; reflexivity|]);
     (split; [intros H; try discriminate; reflexivity|]);
     (split;
      [cbn [fst]; split;
       [intros H; try discriminate; tauto
       |intros [H|H]; try discriminate; reflexivity]
      |intros e; cbn [fst]; split;
       [intros [= <-]; tauto
       |intros [[H ->]|H]; try discriminate; congruence]])).
Qed.


End MoreClaims.

(** ** Steps and runs *)

Lemma notified_fields (i t : PyVal) (m p : Z) (v : DaikinAC.Values) :
  DaikinAC.room_temperature (DaikinAC.notified i t m p v)
  = (if is_numeric i
     then notify_of_external_update i (DaikinAC.room_temperature v)
     else DaikinAC.room_temperature v)
  /\ DaikinAC.target_temperature (DaikinAC.notified i t m p v)
     = (if is_numeric t
        then notify_of_external_update t (DaikinAC.target_temperature v)
        else DaikinAC.target_temperature v)
  /\ DaikinAC.thermo_mode (DaikinAC.notified i t m p v)
     = notify_of_external_update
         (PyStr (lit (decode_mode (PyInt p) (PyInt m))))
         (DaikinAC.thermo_mode v)
  /\ DaikinAC.power (DaikinAC.notified i t m p v)
     = notify_of_external_update (PyInt p) (DaikinAC.power v).
Proof.
  unfold DaikinAC.notified.
  destruct (is_numeric i), (is_numeric t); repeat split; reflexivity.
Qed.

Lemma last_value_notify (x : PyVal) (V : Value) :
  last_value (notify_of_external_update x V) = last_value V
  \/ (last_value (notify_of_external_update x V) = x
      /\ is_not_None x = true).
Proof.
  unfold notify_of_external_update; cbn [last_value].
  destruct (is_not_None x); cbn [andb]; [|now left].
  destruct (py_ne x (last_value V)); [now right | now left].
Qed.

Lemma pushed_notify (x : PyVal) (V : Value) :
  pushed (notify_of_external_update x V) = x :: pushed V.
Proof. reflexivity. Qed.

Lemma from_writes_refl (V : Value) (ws : list PyVal) : from_writes V V ws.
Proof.
  split; [|now left]. exists []. split; [reflexivity|].
  intros x [].
Qed.

Lemma from_writes_notify (v : PyVal) (V : Value) :
  from_writes V (notify_of_external_update v V) [v].
Proof.
  split.
  - exists [v]. split; [reflexivity|]. intros x Hx. exact Hx.
  - destruct (last_value_notify v V) as [H|[H _]]; [now left|].
    right. rewrite H. now left.
Qed.

Lemma from_writes_trans (V0 V1 V2 : Value) (ws1 ws2 : list PyVal) :
  from_writes V0 V1 ws1 -> from_writes V1 V2 ws2 ->
  from_writes V0 V2 (ws1 ++ ws2).
Proof.
  intros [(l1 & E1 & I1) L1] [(l2 & E2 & I2) L2]. split.
  - exists (l2 ++ l1). split.
    + now rewrite E2, E1, app_assoc.
    + intros x Hx. apply in_app_or in Hx as [Hx|Hx]; apply in_or_app;
        [right; now apply I2 | left; now apply I1].
  - destruct L2 as [L2|L2].
    + rewrite L2. destruct L1 as [L1|L1]; [now left|].
      right. apply in_or_app. now left.
    + right. apply in_or_app. now right.
Qed.

Section Steps.
Context {Dev : Type} {client : Daikin.Client Dev}.
Variable DEBUG : bool.

(** What one event does to an indoor unit. Either it is a sleep running
    out whose poll goes through, with the notifications of one poll; or no
    poll goes through, the room temperature is not notified, and the
    other values change only if the event is a write, by the notification
    of the written value. *)
Lemma ac_step_cases (e : DaikinAC.event) (w : world Dev DaikinAC.Values) :
  (DaikinAC.completes_poll DEBUG e w = true
   /\ e = DaikinAC.SleepElapsed
   /\ exists i t m p d,
        snd (DaikinAC.step DEBUG e w)
        = with_task Sleeping
            (with_props (DaikinAC.notified i t m p (props w))
               (with_device d (after_sleep w))))
  \/ (DaikinAC.completes_poll DEBUG e w = false
      /\ slept w <= slept (snd (DaikinAC.step DEBUG e w))
      /\ match e with
         | DaikinAC.SetTargetTemperature v =>
             props (snd (DaikinAC.step DEBUG e w)) = props w
             \/ props (snd (DaikinAC.step DEBUG e w))
                = DaikinAC.notify_target_temperature v (props w)
         | DaikinAC.SetPower v =>
             props (snd (DaikinAC.step DEBUG e w)) = props w
             \/ props (snd (DaikinAC.step DEBUG e w))
                = DaikinAC.notify_power v (props w)
         | DaikinAC.SetMode v =>
             props (snd (DaikinAC.step DEBUG e w)) = props w
             \/ props (snd (DaikinAC.step DEBUG e w))
                = DaikinAC.notify_thermo_mode v (props w)
         | _ => props (snd (DaikinAC.step DEBUG e w)) = props w
         end).
Proof.
  assert (Hdec : {e = DaikinAC.SleepElapsed} + {e <> DaikinAC.SleepElapsed})
    by (destruct e; (now left) || (right; discriminate)).
  assert (HU : UPDATE_THING_SECONDS = 15) by reflexivity.
  destruct Hdec as [->|He].
  - destruct (sensor_update_task w) eqn:Hw.
    2:{ destruct (ac_sleep_elapsed_cases DEBUG w Hw)
          as [[d H]|(i & t & m & p & d & d0 & d1 & d2 & _ & _ & H)];
          cbv zeta in H; unfold DaikinAC.completes_poll; rewrite Hw, H.
        - right. cbn. repeat split. lia.
        - left. split; [reflexivity|]. split; [reflexivity|].
          now exists i, t, m, p, d. }
    all: right; unfold DaikinAC.completes_poll;
      rewrite (ac_sleep_elapsed_idle DEBUG w) by (rewrite Hw; discriminate);
      rewrite Hw; repeat split; lia.
  - right. destruct (ac_step_frame DEBUG e w He)
      as (d & t & p & Heq & _ & Hp).
    rewrite Heq. cbn [slept props with_task with_props with_device].
    split; [destruct e; try reflexivity; now elim He|].
    split; [lia|]. exact Hp.
Qed.

Lemma condenser_step_cases (e : DaikinCondenser.event)
      (w : world Dev DaikinCondenser.Values) :
  (DaikinCondenser.completes_poll DEBUG e w = true
   /\ exists v d,
        snd (DaikinCondenser.step DEBUG e w)
        = with_task Sleeping
            (with_props
               (DaikinCondenser.notify_outside_temperature v (props w))
               (with_device d (after_sleep w))))
  \/ (DaikinCondenser.completes_poll DEBUG e w = false
      /\ props (snd (DaikinCondenser.step DEBUG e w)) = props w
      /\ slept w <= slept (snd (DaikinCondenser.step DEBUG e w))).
Proof.
  assert (Hdec : {e = DaikinCondenser.SleepElapsed}
                 + {e <> DaikinCondenser.SleepElapsed})
    by (destruct e; (now left) || (right; discriminate)).
  assert (HU : UPDATE_THING_SECONDS = 15) by reflexivity.
  destruct Hdec as [->|He].
  - destruct (sensor_update_task w) eqn:Hw.
    2:{ unfold DaikinCondenser.completes_poll.
        rewrite Hw, (condenser_sleep_elapsed_eq DEBUG w Hw).
        destruct (Daikin.outside_temperature (device w)) as [[v|] d].
        - left. split; [reflexivity|]. now exists v, d.
        - right. cbn. repeat split. lia. }
    all: right; unfold DaikinCondenser.completes_poll;
      rewrite (condenser_sleep_elapsed_idle DEBUG w)
        by (rewrite Hw; discriminate);
      rewrite Hw; repeat split; lia.
  - right. destruct (condenser_step_other DEBUG e w He) as [Hp Hs].
    rewrite Hp, Hs. repeat split; [|lia].
    destruct e; try reflexivity; now elim He.
Qed.

(** Every poll that goes through has a full sleep before it. *)
Lemma ac_slept_bound (es : list DaikinAC.event)
      (w : world Dev DaikinAC.Values) :
  slept w
  + UPDATE_THING_SECONDS * Z.of_nat (DaikinAC.completed_polls DEBUG es w)
  <= slept (DaikinAC.run DEBUG es w).
Proof.
  revert w. induction es as [|e es IH]; intros w;
    cbn [DaikinAC.run DaikinAC.completed_polls];
    [unfold UPDATE_THING_SECONDS; lia|].
  specialize (IH (snd (DaikinAC.step DEBUG e w))).
  destruct (ac_step_cases e w)
    as [(Hc & _ & i & t & m & p & d & H)|(Hc & Hs & _)]; rewrite Hc.
  - rewrite H in *.
    cbn [slept with_task with_props with_device after_sleep with_slept] in IH.
    unfold UPDATE_THING_SECONDS in *. lia.
  - unfold UPDATE_THING_SECONDS in *. lia.
Qed.

(** While no poll goes through, the room temperature keeps its value and
    the writable properties are touched by writes only. *)
Lemma ac_before_first_poll (es : list DaikinAC.event)
      (w : world Dev DaikinAC.Values) :
  DaikinAC.completed_polls DEBUG es w = O ->
  DaikinAC.room_temperature (props (DaikinAC.run DEBUG es w))
  = DaikinAC.room_temperature (props w)
  /\ from_writes (DaikinAC.target_temperature (props w))
       (DaikinAC.target_temperature (props (DaikinAC.run DEBUG es w)))
       (written_target es)
  /\ from_writes (DaikinAC.power (props w))
       (DaikinAC.power (props (DaikinAC.run DEBUG es w)))
       (written_power es)
  /\ from_writes (DaikinAC.thermo_mode (props w))
       (DaikinAC.thermo_mode (props (DaikinAC.run DEBUG es w)))
       (written_mode es).
Proof.
  revert w. induction es as [|e es IH]; intros w.
  { intros _. cbn [DaikinAC.run]. repeat split; try reflexivity;
      apply from_writes_refl. }
  cbn [DaikinAC.run DaikinAC.completed_polls]. intros Hc.
  destruct (ac_step_cases e w) as [(Hc1 & _)|(Hc1 & _ & Hp)];
    rewrite Hc1 in Hc; [discriminate|].
  cbn [Nat.add] in Hc. destruct (IH _ Hc) as (Hr & Ht & Hpw & Hm).
  unfold written_target, written_power, written_mode.
  cbn [flat_map]. fold (written_target es) (written_power es)
                       (written_mode es).
  assert (Hsame : props (snd (DaikinAC.step DEBUG e w)) = props w ->
            DaikinAC.room_temperature (props (DaikinAC.run DEBUG es
                 (snd (DaikinAC.step DEBUG e w))))
            = DaikinAC.room_temperature (props w)
            /\ from_writes (DaikinAC.target_temperature (props w))
                 (DaikinAC.target_temperature
                    (props (DaikinAC.run DEBUG es
                              (snd (DaikinAC.step DEBUG e w)))))
                 (written_target es)
            /\ from_writes (DaikinAC.power (props w))
                 (DaikinAC.power
                    (props (DaikinAC.run DEBUG es
                              (snd (DaikinAC.step DEBUG e w)))))
                 (written_power es)
            /\ from_writes (DaikinAC.thermo_mode (props w))
                 (DaikinAC.thermo_mode
                    (props (DaikinAC.run DEBUG es
                              (snd (DaikinAC.step DEBUG e w)))))
                 (written_mode es)).
  { intros E. rewrite E in Hr, Ht, Hpw, Hm.
    split; [exact Hr|]. split; [exact Ht|]. split; [exact Hpw|exact Hm]. }
  destruct e; cbn [app]; try (now apply Hsame).
  - destruct Hp as [Hp|Hp];
      [destruct (Hsame Hp) as (S1 & S2 & S3 & S4);
       split; [exact S1|]; split; [|split; [exact S3 | exact S4]];
       apply (from_writes_trans _ _ _ [v] _ (from_writes_refl _ _) S2)|].
    rewrite Hp in Hr, Ht, Hpw, Hm.
    split; [exact Hr|]. split; [|split; [exact Hpw | exact Hm]].
    apply (from_writes_trans _ _ _ [v] _ (from_writes_notify v _) Ht).
  - destruct Hp as [Hp|Hp];
      [destruct (Hsame Hp) as (S1 & S2 & S3 & S4);
       split; [exact S1|]; split; [exact S2|]; split; [|exact S4];
       apply (from_writes_trans _ _ _ [v] _ (from_writes_refl _ _) S3)|].
    rewrite Hp in Hr, Ht, Hpw, Hm.
    split; [exact Hr|]. split; [exact Ht|]. split; [|exact Hm].
    apply (from_writes_trans _ _ _ [v] _ (from_writes_notify v _) Hpw).
  - destruct Hp as [Hp|Hp];
      [destruct (Hsame Hp) as (S1 & S2 & S3 & S4);
       split; [exact S1|]; split; [exact S2|]; split; [exact S3|];
       apply (from_writes_trans _ _ _ [v] _ (from_writes_refl _ _) S4)|].
    rewrite Hp in Hr, Ht, Hpw, Hm.
    split; [exact Hr|]. split; [exact Ht|]. split; [exact Hpw|].
    apply (from_writes_trans _ _ _ [v] _ (from_writes_notify v _) Hm).
Qed.

(** While no poll goes through, timer events, starts and cancellations
    notify nothing. *)
Lemma ac_quiet_run (es : list DaikinAC.event)
      (w : world Dev DaikinAC.Values) :
  forallb loop_event es = true ->
  DaikinAC.completed_polls DEBUG es w = O ->
  props (DaikinAC.run DEBUG es w) = props w.
Proof.
  revert w. induction es as [|e es IH]; intros w; [reflexivity|].
  cbn [forallb DaikinAC.run DaikinAC.completed_polls].
  rewrite andb_true_iff. intros [He Hes] Hc.
  destruct (ac_step_cases e w) as [(Hc1 & _)|(Hc1 & _ & Hp)];
    rewrite Hc1 in Hc; [discriminate|].
  cbn [Nat.add] in Hc. rewrite (IH _ Hes Hc).
  destruct e; try discriminate; exact Hp.
Qed.

End Steps.

(** ** Time slept and polls gone through *)

Section Elapsed.
Context {Dev : Type} {client : Daikin.Client Dev}.
Variable DEBUG : bool.

Lemma condenser_run_invariant (es : list DaikinCondenser.event)
      (w : world Dev DaikinCondenser.Values) :
  slept w <= slept (DaikinCondenser.run DEBUG es w)
  /\ (slept (DaikinCondenser.run DEBUG es w)
      < slept w + UPDATE_THING_SECONDS ->
      props (DaikinCondenser.run DEBUG es w) = props w)
  /\ (DaikinCondenser.completed_polls DEBUG es w = O ->
      props (DaikinCondenser.run DEBUG es w) = props w).
Proof.
  revert w. induction es as [|e es IH]; intros w.
  { cbn [DaikinCondenser.run]. repeat split; try reflexivity; try lia. }
  cbn [DaikinCondenser.run DaikinCondenser.completed_polls].
  destruct (IH (snd (DaikinCondenser.step DEBUG e w))) as (IH1 & IH2 & IH3).
  assert (Hdec : {e = DaikinCondenser.SleepElapsed}
                 + {e <> DaikinCondenser.SleepElapsed})
    by (destruct e; (now left) || (right; discriminate)).
  assert (HU : UPDATE_THING_SECONDS = 15) by reflexivity.
  destruct Hdec as [->|He].
  - destruct (sensor_update_task w) eqn:Hw.
    2:{ unfold DaikinCondenser.completes_poll. rewrite Hw.
        rewrite (condenser_sleep_elapsed_eq DEBUG w Hw) in *.
        destruct (Daikin.outside_temperature (device w)) as [[v|] d];
          cbn [slept props sensor_update_task with_task with_props
                 with_device after_sleep with_slept] in *.
        - repeat split; lia.
        - repeat split; try lia. intros Hc. now apply IH3. }
    all: rewrite (condenser_sleep_elapsed_idle DEBUG w) in *
        by (rewrite Hw; discriminate);
      unfold DaikinCondenser.completes_poll; rewrite Hw; cbn [Nat.add];
      repeat split; assumption.
  - destruct (condenser_step_other DEBUG e w He) as [Hp Hs].
    rewrite Hp, Hs in *.
    assert (Hc : DaikinCondenser.completes_poll DEBUG e w = false)
      by (destruct e; try reflexivity; now elim He).
    rewrite Hc. cbn [Nat.add]. repeat split; assumption.
Qed.

(** C10, as it holds. An update task does nothing before its first sleep
    has run out: its first step only reaches the [await], and in every run
    from the constructor state no poll has gone through while the time
    slept is below one poll interval. As long as no poll has gone through,
    the loop has notified nothing: the room temperature still has the
    constructor's value, and a writable property has been notified only
    with values a consumer wrote, so that its visible value is the
    constructor's or a written one, never device state; without writes all
    values are the constructor's. The condenser, which has no writable
    property, keeps the constructor's value. The constructor's values are
    0.0 for the temperatures, "off" for the mode and [False] for the
    power. *)
Theorem loop_notifies_nothing_before_first_poll :
  (forall (es : list DaikinAC.event) (d : Dev),
     let w := DaikinAC.run DEBUG es (DaikinAC.init d) in
     0 <= slept w
     /\ (slept w < UPDATE_THING_SECONDS ->
         DaikinAC.completed_polls DEBUG es (DaikinAC.init d) = O)
     /\ (DaikinAC.completed_polls DEBUG es (DaikinAC.init d) = O ->
         DaikinAC.room_temperature (props w)
         = DaikinAC.room_temperature DaikinAC.init_values
         /\ from_writes (DaikinAC.target_temperature DaikinAC.init_values)
              (DaikinAC.target_temperature (props w)) (written_target es)
         /\ from_writes (DaikinAC.power DaikinAC.init_values)
              (DaikinAC.power (props w)) (written_power es)
         /\ from_writes (DaikinAC.thermo_mode DaikinAC.init_values)
              (DaikinAC.thermo_mode (props w)) (written_mode es)
         /\ (forallb loop_event es = true ->
             props w = DaikinAC.init_values)))
  /\ (forall (es : list DaikinCondenser.event) (d : Dev),
        let w := DaikinCondenser.run DEBUG es (DaikinCondenser.init d) in
        0 <= slept w
        /\ (slept w < UPDATE_THING_SECONDS ->
            props w = DaikinCondenser.init_values)
        /\ (DaikinCondenser.completed_polls DEBUG es (DaikinCondenser.init d)
            = O ->
            props w = DaikinCondenser.init_values))
  /\ (forall d : Dev,
        snd (DaikinAC.step DEBUG DaikinAC.Start (DaikinAC.init d))
        = with_task Sleeping (DaikinAC.init d)
        /\ snd (DaikinCondenser.step DEBUG DaikinCondenser.Start
                  (DaikinCondenser.init d))
           = with_task Sleeping (DaikinCondenser.init d))
  /\ map last_value
       [DaikinAC.room_temperature DaikinAC.init_values;
        DaikinAC.target_temperature DaikinAC.init_values;
        DaikinAC.thermo_mode DaikinAC.init_values;
        DaikinAC.power DaikinAC.init_values;
        DaikinCondenser.outside_temperature DaikinCondenser.init_values]
     = [PyFloat (S754_zero false); PyFloat (S754_zero false);
        PyStr (lit "off"); PyBool false; PyFloat (S754_zero false)].
Proof.
  split; [|split; [|split; [|reflexivity]]].
  - intros es d w.
    pose proof (ac_slept_bound DEBUG es (DaikinAC.init d)) as Hs.
    fold w in Hs. cbn [slept DaikinAC.init] in Hs.
    unfold UPDATE_THING_SECONDS in *.
    split; [lia|]. split; [lia|].
    intros Hc.
    destruct (ac_before_first_poll DEBUG es (DaikinAC.init d) Hc)
      as (Hr & Ht & Hp & Hm).
    fold w in Hr, Ht, Hp, Hm.
    split; [exact Hr|]. split; [exact Ht|]. split; [exact Hp|].
    split; [exact Hm|].
    intros Hes. subst w. now rewrite (ac_quiet_run DEBUG es _ Hes Hc).
  - intros es d w.
    destruct (condenser_run_invariant es (DaikinCondenser.init d))
      as (H1 & H2 & H3).
    fold w in H1, H2, H3. cbn [slept DaikinCondenser.init] in H1, H2.
    repeat split; [exact H1 | exact H2 | exact H3].
  - intros d. split; reflexivity.
Qed.

End Elapsed.

(** ** Concrete instances *)

Lemma is_numeric_characterised_witness :
  Forall (fun c => (c < 128)%N) (lit "21")
  /\ (is_numeric (PyStr (lit "21")) = true <->
      lit "21" <> [] /\ digits_only (lit "21") = true).
Proof.
  assert (H : Forall (fun c => (c < 128)%N) (lit "21"))
    by (repeat constructor).
  split; [exact H|].
  exact (proj1 (proj2 (is_numeric_characterised PyNone)) (lit "21") H).
Defined.


(** With no target temperature to report, the poll of the simulated
    appliance still goes through: six requests are made, the room
    temperature, the mode and the power are pushed, the target temperature
    is not. *)
Example poll_without_target :
  fst (DaikinAC.poll false Scenario.ac_no_target) = Return tt
  /\ requests (device (snd (DaikinAC.poll false Scenario.ac_no_target)))
     = 6%nat
  /\ props (snd (DaikinAC.poll false Scenario.ac_no_target))
     = {| DaikinAC.room_temperature :=
            {| last_value := f21_5; pushed := [f21_5] |};
          DaikinAC.target_temperature :=
            DaikinAC.target_temperature DaikinAC.init_values;
          DaikinAC.thermo_mode :=
            {| last_value := PyStr (lit "cool");
               pushed := [PyStr (lit "cool")] |};
          DaikinAC.power :=
            {| last_value := PyInt 1; pushed := [PyInt 1] |} |}.
Proof. repeat split; vm_compute; reflexivity. Qed.

Lemma cancel_outcome_by_task_state_witness :
  sensor_update_task Scenario.ac_sleeping = Sleeping
  /\ DaikinAC.cancel_update_level_task false Scenario.ac_sleeping
     = (Return tt, with_task Done Scenario.ac_sleeping).
Proof.
  split; [reflexivity|].
  apply (proj1 (proj1 (cancel_outcome_by_task_state false)
                  Scenario.ac_sleeping)).
  reflexivity.
Defined.

(** C8, as stated, fails. The update task of the indoor unit whose
    appliance failed the first request has ended with the read error;
    [cancel_update_level_task] then raises that error to its caller. On
    an indoor unit whose task has not run yet it raises
    [CancelledError]. *)
Lemma cancel_raises_after_read_error :
  sensor_update_task Scenario.ac_after_outage = Failed ReadError
  /\ fst (DaikinAC.cancel_update_level_task false Scenario.ac_after_outage)
     = Raise ReadError
  /\ sensor_update_task Scenario.ac_created = Created
  /\ fst (DaikinAC.cancel_update_level_task false Scenario.ac_created)
     = Raise CancelledError.
Proof. repeat split; vm_compute; reflexivity. Qed.

(** Outside the sleep, cancelling does raise: a task that has never run is
    cancelled before it enters its [try], and a task that an exception has
    ended hands that exception to whoever waits for it. *)
Lemma cancel_outside_sleep_raises {Dev} {client : Daikin.Client Dev}
      (DEBUG : bool) (w : world Dev DaikinAC.Values) (e : exn) :
  (sensor_update_task w = Created ->
   fst (DaikinAC.cancel_update_level_task DEBUG w) = Raise CancelledError)
  /\ (sensor_update_task w = Failed e ->
      fst (DaikinAC.cancel_update_level_task DEBUG w) = Raise e).
Proof.
  unfold DaikinAC.cancel_update_level_task, cancel_and_run_until_complete.
  split; intros H; rewrite H; cbn [fst]; [reflexivity|].
  now rewrite H.
Qed.



Lemma loop_notifies_nothing_before_first_poll_witness :
  DaikinAC.completed_polls false
    [DaikinAC.Start; DaikinAC.SetPower (PyBool true);
     DaikinAC.SetMode (PyStr (lit "heat"))]
    (DaikinAC.init cooling) = O
  /\ DaikinAC.room_temperature (props Scenario.ac_written_early)
     = DaikinAC.room_temperature DaikinAC.init_values
  /\ from_writes (DaikinAC.power DaikinAC.init_values)
       (DaikinAC.power (props Scenario.ac_written_early))
       [PyBool true].
Proof.
  assert (H : DaikinAC.completed_polls false
                [DaikinAC.Start; DaikinAC.SetPower (PyBool true);
                 DaikinAC.SetMode (PyStr (lit "heat"))]
                (DaikinAC.init cooling) = O) by reflexivity.
  split; [exact H|].
  destruct (proj2 (proj2 (proj1 (loop_notifies_nothing_before_first_poll
                                   false)
                            [DaikinAC.Start; DaikinAC.SetPower (PyBool true);
                             DaikinAC.SetMode (PyStr (lit "heat"))]
                            cooling)) H) as (Hr & _ & Hp & _).
  split; [exact Hr | exact Hp].
Defined.

(** C10, as stated, fails. A consumer sets the power and the mode right
    after the update task has started. No sleep has run out and no poll
    has gone through, yet both properties have been notified and show the
    written values, not the constructor's. *)
Lemma values_written_before_first_poll :
  slept Scenario.ac_written_early = 0
  /\ DaikinAC.completed_polls false
       [DaikinAC.Start; DaikinAC.SetPower (PyBool true);
        DaikinAC.SetMode (PyStr (lit "heat"))]
       (DaikinAC.init cooling) = O
  /\ DaikinAC.power (props Scenario.ac_written_early)
     = {| last_value := PyBool true; pushed := [PyBool true] |}
  /\ DaikinAC.thermo_mode (props Scenario.ac_written_early)
     = {| last_value := PyStr (lit "heat");
          pushed := [PyStr (lit "heat")] |}
  /\ props Scenario.ac_written_early <> DaikinAC.init_values.
Proof.
  repeat split; try (vm_compute; reflexivity).
  intros H. apply (f_equal DaikinAC.power) in H.
  apply (f_equal last_value) in H. vm_compute in H. discriminate.
Qed.

(** The round trip through the simulated appliance, switched on: setting
    the mode by name and letting the next poll run pushes that name to the
    [mode] value, except that "off" switches the power off and leaves the
    mode code. *)
Example mode_round_trip_on_appliance (t : SemanticMode) :
  hd PyNone
     (pushed
        (DaikinAC.thermo_mode
           (props
              (DaikinAC.run false
                 [DaikinAC.SetMode (PyStr (lit (mode_name t)));
                  DaikinAC.SleepElapsed]
                 Scenario.ac_sleeping))))
  = PyStr (lit (mode_name t)).
Proof. destruct t; vm_compute; reflexivity. Qed.

(** Set on an appliance that is switched off, a mode other than "off" does
    not come back: the assignment leaves the power flag alone and the next
    poll reports "off". *)
Example mode_set_while_off :
  hd PyNone
     (pushed
        (DaikinAC.thermo_mode
           (props
              (DaikinAC.run false
                 [DaikinAC.Start; DaikinAC.SetMode (PyStr (lit "cool"));
                  DaikinAC.SleepElapsed]
                 (DaikinAC.init (put_pow 0 cooling))))))
  = PyStr (lit "off").
Proof. vm_compute. reflexivity. Qed.

(** * Further properties *)

(** ** The write-side mode mapping *)

Lemma str_eqb_eq (s t : str) : str_eqb s t = true <-> s = t.
Proof.
  revert t. induction s as [|c s IH]; intros [|d t]; cbn [str_eqb];
    try (split; [discriminate | discriminate]); [now split|].
  rewrite andb_true_iff, N.eqb_eq, IH. split.
  - now intros [-> ->].
  - now intros [= -> ->].
Qed.

Lemma py_eq_str_spec (v : PyVal) (s : str) :
  reflect (v = PyStr s) (py_eq v (PyStr s)).
Proof.
  destruct v as [|b|z|f|t]; try (constructor; discriminate).
  unfold py_eq; cbn [num_of].
  destruct (str_eqb t s) eqn:E; constructor.
  - apply str_eqb_eq in E. now subst.
  - intros [= ->]. rewrite (proj2 (str_eqb_eq s s) eq_refl) in E.
    discriminate.
Qed.

(** X1. [set_tmode] never switches an appliance on. Whatever it is
    called with, it assigns either power 0 (only for "off") or one of the
    mode codes 1, 2, 3, 4 and 6, and never a target temperature; so the
    power flag of the appliance afterwards is the one it had, or 0. *)
Theorem set_tmode_never_switches_on (v : PyVal) (power0 mode0 : Z) :
  match encode_mode v with
  | AssignPower p => p = 0 /\ v = PyStr (lit "off")
  | AssignMode m => In m [1; 2; 3; 4; 6]
  | AssignTargetTemperature _ => False
  end
  /\ (fst (commanded (encode_mode v) (power0, mode0)) = power0
      \/ fst (commanded (encode_mode v) (power0, mode0)) = 0).
Proof.
  unfold encode_mode.
  destruct (py_eq_str_spec v (lit "off")) as [->|_];
    [split; [now split | now right]|].
  destruct (py_eq v (PyStr (lit "dehumid")));
    [split; [cbn; tauto | now left]|].
  destruct (py_eq v (PyStr (lit "cool")));
    [split; [cbn; tauto | now left]|].
  destruct (py_eq v (PyStr (lit "heat")));
    [split; [cbn; tauto | now left]|].
  destruct (py_eq v (PyStr (lit "fan")));
    [split; [cbn; tauto | now left]|].
  split; [cbn; tauto | now left].
Qed.

(** X2. The fallback of [set_tmode]. Mode code 1 is assigned exactly when
    the argument is none of the strings "off", "dehumid", "cool", "heat"
    and "fan": for "auto", for any other string (a name in capitals, the
    empty string) and for any value that is not a string. *)
Theorem set_tmode_fallback (v : PyVal) :
  encode_mode v = AssignMode 1
  <-> ~ In v [PyStr (lit "off"); PyStr (lit "dehumid"); PyStr (lit "cool");
              PyStr (lit "heat"); PyStr (lit "fan")].
Proof.
  unfold encode_mode. cbn [In].
  destruct (py_eq_str_spec v (lit "off")) as [->|H1];
    [split; [discriminate | intros H; elim H; tauto]|].
  destruct (py_eq_str_spec v (lit "dehumid")) as [->|H2];
    [split; [discriminate | intros H; elim H; tauto]|].
  destruct (py_eq_str_spec v (lit "cool")) as [->|H3];
    [split; [discriminate | intros H; elim H; tauto]|].
  destruct (py_eq_str_spec v (lit "heat")) as [->|H4];
    [split; [discriminate | intros H; elim H; tauto]|].
  destruct (py_eq_str_spec v (lit "fan")) as [->|H5];
    [split; [discriminate | intros H; elim H; tauto]|].
  split; [|reflexivity].
  intros _ [H|[H|[H|[H|[H|[]]]]]]; congruence.
Qed.

(** X3. Writing back the mode a poll has reported keeps the report. When
    the name computed from a power flag and a mode code is handed to
    [set_tmode], the appliance is left as it was if it is off or its mode
    code is one of 1, 2, 3, 4 and 6, and otherwise only its mode code
    becomes 1; in both cases a poll computes the same name again. *)
Theorem mode_write_back (power mode : Z) :
  commanded
    (encode_mode (PyStr (lit (decode_mode (PyInt power) (PyInt mode)))))
    (power, mode)
  = (if (power =? 0) || (mode =? 1) || (mode =? 2) || (mode =? 3)
        || (mode =? 4) || (mode =? 6)
     then (power, mode) else (power, 1))
  /\ decode_mode
       (PyInt (fst (commanded
                      (encode_mode
                         (PyStr (lit (decode_mode (PyInt power)
                                                  (PyInt mode)))))
                      (power, mode))))
       (PyInt (snd (commanded
                      (encode_mode
                         (PyStr (lit (decode_mode (PyInt power)
                                                  (PyInt mode)))))
                      (power, mode))))
     = decode_mode (PyInt power) (PyInt mode).
Proof.
  assert (Hoff : encode_mode (PyStr (lit "off")) = AssignPower 0)
    by (vm_compute; reflexivity).
  assert (Hdeh : encode_mode (PyStr (lit "dehumid")) = AssignMode 2)
    by (vm_compute; reflexivity).
  assert (Hcool : encode_mode (PyStr (lit "cool")) = AssignMode 3)
    by (vm_compute; reflexivity).
  assert (Hheat : encode_mode (PyStr (lit "heat")) = AssignMode 4)
    by (vm_compute; reflexivity).
  assert (Hfan : encode_mode (PyStr (lit "fan")) = AssignMode 6)
    by (vm_compute; reflexivity).
  assert (Hauto : encode_mode (PyStr (lit "auto")) = AssignMode 1)
    by (vm_compute; reflexivity).
  set (n := decode_mode (PyInt power) (PyInt mode)).
  assert (Hn : n = if power =? 0 then "off"%string
                   else if mode =? 2 then "dehumid"%string
                   else if mode =? 3 then "cool"%string
                   else if mode =? 4 then "heat"%string
                   else if mode =? 6 then "fan"%string
                   else "auto"%string)
    by (subst n; unfold decode_mode; now rewrite !py_eq_int).
  assert (Hon : forall m, power <> 0 ->
            decode_mode (PyInt power) (PyInt m)
            = decode_mode (PyInt 1) (PyInt m)).
  { intros m Hp. unfold decode_mode. rewrite !py_eq_int.
    now destruct (Z.eqb_spec power 0). }
  clearbody n. subst n.
  destruct (Z.eqb_spec power 0) as [->|Hp].
  { rewrite Hoff. cbn [commanded fst snd orb]. split; reflexivity. }
  cbn [orb].
  destruct (Z.eqb_spec mode 2) as [->|H2];
    [rewrite Hdeh; cbn [commanded fst snd]; rewrite Hon by assumption;
     split; reflexivity|].
  destruct (Z.eqb_spec mode 3) as [->|H3];
    [rewrite Hcool; cbn [commanded fst snd]; rewrite Hon by assumption;
     split; reflexivity|].
  destruct (Z.eqb_spec mode 4) as [->|H4];
    [rewrite Hheat; cbn [commanded fst snd]; rewrite Hon by assumption;
     split; reflexivity|].
  destruct (Z.eqb_spec mode 6) as [->|H6];
    [rewrite Hfan; cbn [commanded fst snd]; rewrite Hon by assumption;
     split; reflexivity|].
  rewrite Hauto. cbn [commanded fst snd]. rewrite Hon by assumption.
  destruct (Z.eqb_spec mode 1) as [->|H1]; cbn [orb]; split; reflexivity.
Qed.

(** ** The Things' identifiers *)

(** X4. The identifier a constructor gives its Thing determines the
    address: two indoor units have the same identifier only at the same
    address, and so have two condensers. An indoor unit and a condenser
    share an identifier only if the unit's address is the condenser's
    followed by ":condenser"; at one and the same address their
    identifiers differ. Model and name of the appliance play no part. *)
Theorem thing_ids_tell_addresses (ip ip' ty nm ty' nm' : str) :
  (Construct.id (Construct.DaikinAC_thing ip ty nm)
   = Construct.id (Construct.DaikinAC_thing ip' ty' nm') <-> ip = ip')
  /\ (Construct.id (Construct.DaikinCondenser_thing ip ty nm)
      = Construct.id (Construct.DaikinCondenser_thing ip' ty' nm')
      <-> ip = ip')
  /\ (Construct.id (Construct.DaikinAC_thing ip ty nm)
      = Construct.id (Construct.DaikinCondenser_thing ip' ty' nm')
      <-> ip = ip' ++ lit ":condenser")
  /\ Construct.id (Construct.DaikinAC_thing ip ty nm)
     <> Construct.id (Construct.DaikinCondenser_thing ip ty' nm').
Proof.
  cbn [Construct.id Construct.DaikinAC_thing Construct.DaikinCondenser_thing].
  assert (H3 : lit "urn:daikin:" ++ ip
               = lit "urn:daikin:" ++ ip' ++ lit ":condenser"
               <-> ip = ip' ++ lit ":condenser").
  { split; [apply app_inv_head | now intros ->]. }
  split; [|split; [|split]].
  - split; [apply app_inv_head | now intros ->].
  - split; [|now intros ->].
    intros H. apply app_inv_head in H. now apply app_inv_tail in H.
  - exact H3.
  - intros H. apply app_inv_head in H.
    apply (f_equal (@List.length N)) in H.
    rewrite List.length_app in H.
    assert (Hl : List.length (lit ":condenser") = 10%nat) by reflexivity.
    rewrite Hl in H. lia.
Qed.

(** ** Cancelling an update task *)

Lemma with_task_same {Dev Props} (w : world Dev Props) :
  with_task (sensor_update_task w) w = w.
Proof. now destruct w. Qed.

Section Cancel.
Context {Dev : Type} {client : Daikin.Client Dev}.
Variable DEBUG : bool.

Lemma condenser_finished_forever (es : list DaikinCondenser.event)
      (w : world Dev DaikinCondenser.Values) :
  done (sensor_update_task w) = true ->
  DaikinCondenser.run DEBUG es w = w.
Proof.
  intros Hw. induction es as [|e es IH]; [reflexivity|].
  cbn [DaikinCondenser.run].
  assert (H : snd (DaikinCondenser.step DEBUG e w) = w).
  { destruct e; cbn [DaikinCondenser.step].
    - destruct (sensor_update_task w); try reflexivity; discriminate.
    - destruct (sensor_update_task w); try reflexivity; discriminate.
    - rewrite condenser_cancel_outcome.
      destruct (sensor_update_task w); try reflexivity; discriminate. }
  rewrite H. exact IH.
Qed.

(** X5. Cancelling is final. After [cancel_update_level_task] on a sleeping
    task the task is finished for good: whatever happens later, it stays
    returned, no time is slept, no poll goes through and the read-only
    room temperature is never notified again (a writable property only by
    a consumer's write); timer events and further cancellations leave the
    Thing and its appliance exactly as they are, so the appliance is not
    polled again. This holds for both Things. *)
Theorem cancel_is_final :
  (forall (w : world Dev DaikinAC.Values) (es : list DaikinAC.event),
     sensor_update_task w = Sleeping ->
     let w1 := snd (DaikinAC.cancel_update_level_task DEBUG w) in
     sensor_update_task (DaikinAC.run DEBUG es w1) = Done
     /\ slept (DaikinAC.run DEBUG es w1) = slept w
     /\ DaikinAC.completed_polls DEBUG es w1 = O
     /\ DaikinAC.room_temperature (props (DaikinAC.run DEBUG es w1))
        = DaikinAC.room_temperature (props w)
     /\ (forallb loop_event es = true -> DaikinAC.run DEBUG es w1 = w1))
  /\ (forall (w : world Dev DaikinCondenser.Values)
             (es : list DaikinCondenser.event),
        sensor_update_task w = Sleeping ->
        let w1 := snd (DaikinCondenser.cancel_update_level_task DEBUG w) in
        DaikinCondenser.run DEBUG es w1 = with_task Done w).
Proof.
  split.
  - intros w es Hw w1. subst w1. rewrite ac_cancel_outcome, Hw. cbn [snd].
    destruct (ac_finished_forever DEBUG es (with_task Done w) eq_refl)
      as (Ht & Hs & Hr & Hc).
    split; [exact Ht|]. split; [exact Hs|]. split; [exact Hc|].
    split; [exact Hr|].
    intros Hes. now apply ac_finished_untouched.
  - intros w es Hw w1. subst w1. rewrite condenser_cancel_outcome, Hw.
    cbn [snd]. now apply condenser_finished_forever.
Qed.

(** X6. Cancelling twice is harmless. When the task is sleeping or has
    returned, [cancel_update_level_task] returns normally and leaves the
    task returned, and a second call returns normally as well and changes
    nothing. This holds for both Things. *)
Theorem cancel_twice :
  (forall w : world Dev DaikinAC.Values,
     Fleet.cancellable (sensor_update_task w) = true ->
     DaikinAC.cancel_update_level_task DEBUG w
     = (Return tt, with_task Done w)
     /\ DaikinAC.cancel_update_level_task DEBUG (with_task Done w)
        = (Return tt, with_task Done w))
  /\ (forall w : world Dev DaikinCondenser.Values,
        Fleet.cancellable (sensor_update_task w) = true ->
        DaikinCondenser.cancel_update_level_task DEBUG w
        = (Return tt, with_task Done w)
        /\ DaikinCondenser.cancel_update_level_task DEBUG (with_task Done w)
           = (Return tt, with_task Done w)).
Proof.
  split; intros w Hw.
  - rewrite !ac_cancel_outcome. cbn [sensor_update_task with_task].
    destruct (sensor_update_task w) eqn:E; try discriminate.
    + now split.
    + rewrite <- E at 1. rewrite with_task_same. now split.
  - rewrite !condenser_cancel_outcome. cbn [sensor_update_task with_task].
    destruct (sensor_update_task w) eqn:E; try discriminate.
    + now split.
    + rewrite <- E at 1. rewrite with_task_same. now split.
Qed.

(** X7. Outside these states cancelling raises. If the task has never run,
    [cancel_update_level_task] raises [CancelledError] (the cancellation
    reaches the coroutine before its [try]) and the task ends cancelled;
    if the task has ended with an exception, the call raises that
    exception and changes nothing. This holds for both Things. *)
Theorem cancel_raises_outside_sleep :
  (forall (w : world Dev DaikinAC.Values) (e : exn),
     (sensor_update_task w = Created ->
      DaikinAC.cancel_update_level_task DEBUG w
      = (Raise CancelledError, with_task (Failed CancelledError) w))
     /\ (sensor_update_task w = Failed e ->
         DaikinAC.cancel_update_level_task DEBUG w = (Raise e, w)))
  /\ (forall (w : world Dev DaikinCondenser.Values) (e : exn),
        (sensor_update_task w = Created ->
         DaikinCondenser.cancel_update_level_task DEBUG w
         = (Raise CancelledError, with_task (Failed CancelledError) w))
        /\ (sensor_update_task w = Failed e ->
            DaikinCondenser.cancel_update_level_task DEBUG w
            = (Raise e, w))).
Proof.
  split; intros w e.
  - rewrite ac_cancel_outcome. split; intros ->; reflexivity.
  - rewrite condenser_cancel_outcome. split; intros ->; reflexivity.
Qed.

End Cancel.

(** ** Invariants of the runs *)

Lemma decode_mode_in_enum (a b : PyVal) :
  In (decode_mode a b) Construct.mode_enum.
Proof.
  unfold decode_mode, Construct.mode_enum.
  destruct (py_eq a (PyInt 0)); [cbn; tauto|].
  destruct (py_eq b (PyInt 2)); [cbn; tauto|].
  destruct (py_eq b (PyInt 3)); [cbn; tauto|].
  destruct (py_eq b (PyInt 4)); [cbn; tauto|].
  destruct (py_eq b (PyInt 6)); cbn; tauto.
Qed.

Lemma written_of_loop_events (es : list DaikinAC.event) :
  forallb loop_event es = true ->
  written_target es = [] /\ written_power es = [] /\ written_mode es = [].
Proof.
  induction es as [|e es IH]; [now repeat split|].
  cbn [forallb]. rewrite andb_true_iff. intros [He Hes].
  destruct (IH Hes) as (H1 & H2 & H3).
  unfold written_target, written_power, written_mode in *.
  cbn [flat_map]. rewrite H1, H2, H3.
  destruct e; try discriminate; now repeat split.
Qed.

Section Runs.
Context {Dev : Type} {client : Daikin.Client Dev}.
Variable DEBUG : bool.

(** A property of the values that is kept by the notifications of a poll
    and by the notification of every value the run writes is kept by the
    run. *)
Lemma ac_values_invariant (Q : DaikinAC.Values -> Prop)
      (es : list DaikinAC.event) :
  (forall i t m p v, Q v -> Q (DaikinAC.notified i t m p v)) ->
  (forall x v, In x (written_target es) -> Q v ->
               Q (DaikinAC.notify_target_temperature x v)) ->
  (forall x v, In x (written_power es) -> Q v ->
               Q (DaikinAC.notify_power x v)) ->
  (forall x v, In x (written_mode es) -> Q v ->
               Q (DaikinAC.notify_thermo_mode x v)) ->
  forall w : world Dev DaikinAC.Values,
    Q (props w) -> Q (props (DaikinAC.run DEBUG es w)).
Proof.
  intros HQ. induction es as [|e es IH]; intros Ht Hp Hm w Hw; [exact Hw|].
  cbn [DaikinAC.run].
  unfold written_target, written_power, written_mode in Ht, Hp, Hm.
  cbn [flat_map] in Ht, Hp, Hm.
  fold (written_target es) in Ht. fold (written_power es) in Hp.
  fold (written_mode es) in Hm.
  apply IH.
  - intros x v Hx. apply Ht. apply in_or_app. now right.
  - intros x v Hx. apply Hp. apply in_or_app. now right.
  - intros x v Hx. apply Hm. apply in_or_app. now right.
  - destruct (ac_step_cases DEBUG e w)
      as [(_ & _ & i & t & m & p & d & ->)|(_ & _ & H)].
    + cbn [props with_task with_props]. now apply HQ.
    + destruct e; try (now rewrite H); destruct H as [-> | ->];
        try exact Hw.
      * apply Ht; [|exact Hw]. apply in_or_app. left. now left.
      * apply Hp; [|exact Hw]. apply in_or_app. left. now left.
      * apply Hm; [|exact Hw]. apply in_or_app. left. now left.
Qed.

(** X8. Polls never take the [mode] property out of its declared
    enumeration. In every run of an indoor unit from its constructor
    state in which the values written to [mode] are among the six strings
    of the property's ["enum"], whatever the appliance answers, the
    visible value of [mode] is one of these strings. *)
Theorem mode_stays_in_enum (es : list DaikinAC.event) (d : Dev) :
  Forall (fun v => exists n, In n Construct.mode_enum /\ v = PyStr (lit n))
         (written_mode es) ->
  exists n,
    In n Construct.mode_enum
    /\ last_value
         (DaikinAC.thermo_mode
            (props (DaikinAC.run DEBUG es (DaikinAC.init d))))
       = PyStr (lit n).
Proof.
  intros Hwr. rewrite Forall_forall in Hwr.
  apply (ac_values_invariant
           (fun v => exists n, In n Construct.mode_enum
                               /\ last_value (DaikinAC.thermo_mode v)
                                  = PyStr (lit n))).
  - intros i t m p v (n & Hn & Hv).
    destruct (notified_fields i t m p v) as (_ & _ & -> & _).
    destruct (last_value_notify
                (PyStr (lit (decode_mode (PyInt p) (PyInt m))))
                (DaikinAC.thermo_mode v)) as [->|[-> _]].
    + now exists n.
    + eexists. split; [apply decode_mode_in_enum | reflexivity].
  - intros x v _ H. exact H.
  - intros x v _ H. exact H.
  - intros x v Hx (n & Hn & Hv).
    cbn [DaikinAC.thermo_mode DaikinAC.notify_thermo_mode].
    destruct (last_value_notify x (DaikinAC.thermo_mode v)) as [->|[-> _]].
    + now exists n.
    + now apply Hwr.
  - exists "off"%string. split; [cbn; tauto | reflexivity].
Qed.

(** X9. The temperature properties of an indoor unit hold values that pass
    the numeric test. In every run from the constructor state, whatever
    the appliance answers and whatever is written, the visible value of
    the read-only [room_temperature] is a number or a numeric string; so
    is that of [target_temperature] in every run in which the values
    written to it pass the test. A sentinel string or [None] read from the
    appliance never gets there. *)
Theorem temperatures_stay_numeric (es : list DaikinAC.event) (d : Dev) :
  is_numeric
    (last_value
       (DaikinAC.room_temperature
          (props (DaikinAC.run DEBUG es (DaikinAC.init d))))) = true
  /\ (Forall (fun v => is_numeric v = true) (written_target es) ->
      is_numeric
        (last_value
           (DaikinAC.target_temperature
              (props (DaikinAC.run DEBUG es (DaikinAC.init d))))) = true).
Proof.
  split.
  - apply (ac_values_invariant
             (fun v => is_numeric (last_value (DaikinAC.room_temperature v))
                       = true)).
    + intros i t m p v Hr.
      destruct (notified_fields i t m p v) as (-> & _).
      destruct (is_numeric i) eqn:Ei; [|exact Hr].
      destruct (last_value_notify i (DaikinAC.room_temperature v))
        as [->|[-> _]]; assumption.
    + intros x v _ H. exact H.
    + intros x v _ H. exact H.
    + intros x v _ H. exact H.
    + reflexivity.
  - intros Hwr. rewrite Forall_forall in Hwr.
    apply (ac_values_invariant
             (fun v => is_numeric
                         (last_value (DaikinAC.target_temperature v))
                       = true)).
    + intros i t m p v Ht.
      destruct (notified_fields i t m p v) as (_ & -> & _).
      destruct (is_numeric t) eqn:Et; [|exact Ht].
      destruct (last_value_notify t (DaikinAC.target_temperature v))
        as [->|[-> _]]; assumption.
    + intros x v Hx Ht.
      cbn [DaikinAC.target_temperature DaikinAC.notify_target_temperature].
      destruct (last_value_notify x (DaikinAC.target_temperature v))
        as [->|[-> _]]; [exact Ht | now apply Hwr].
    + intros x v _ H. exact H.
    + intros x v _ H. exact H.
    + reflexivity.
Qed.

End Runs.

(** ** Counting polls *)

Section Counting.
Context {Dev : Type} {client : Daikin.Client Dev}.
Variable DEBUG : bool.

Lemma ac_counts (es : list DaikinAC.event) (w : world Dev DaikinAC.Values) :
  let w' := DaikinAC.run DEBUG es w in
  let n := DaikinAC.completed_polls DEBUG es w in
  (List.length (pushed (DaikinAC.thermo_mode (props w))) + n
   <= List.length (pushed (DaikinAC.thermo_mode (props w')))
   <= List.length (pushed (DaikinAC.thermo_mode (props w))) + n
      + List.length (written_mode es))%nat
  /\ (List.length (pushed (DaikinAC.power (props w))) + n
      <= List.length (pushed (DaikinAC.power (props w')))
      <= List.length (pushed (DaikinAC.power (props w))) + n
         + List.length (written_power es))%nat
  /\ (List.length (pushed (DaikinAC.room_temperature (props w')))
      <= List.length (pushed (DaikinAC.room_temperature (props w))) + n)%nat
  /\ (List.length (pushed (DaikinAC.target_temperature (props w')))
      <= List.length (pushed (DaikinAC.target_temperature (props w))) + n
         + List.length (written_target es))%nat.
Proof.
  revert w. induction es as [|e es IH]; intros w; cbv zeta.
  { cbn [DaikinAC.run DaikinAC.completed_polls List.length written_mode
           written_power written_target flat_map]. lia. }
  cbn [DaikinAC.run DaikinAC.completed_polls].
  specialize (IH (snd (DaikinAC.step DEBUG e w))). cbv zeta in IH.
  destruct IH as (I1 & I2 & I3 & I4).
  unfold written_target, written_power, written_mode.
  cbn [flat_map]. fold (written_target es) (written_power es)
                       (written_mode es).
  rewrite !List.length_app.
  destruct (ac_step_cases DEBUG e w)
    as [(Hc & -> & i & t & m & p & d & H)|(Hc & _ & Hp)]; rewrite Hc.
  - rewrite H in *.
    cbn [props with_task with_props with_device] in I1, I2, I3, I4.
    destruct (notified_fields i t m p (props w)) as (F1 & F2 & F3 & F4).
    rewrite F1 in I3. rewrite F2 in I4. rewrite F3 in I1. rewrite F4 in I2.
    rewrite pushed_notify in I1, I2. cbn [List.length] in I1, I2 |- *.
    assert (L3 : (List.length
                    (pushed
                       (if is_numeric i
                        then notify_of_external_update i
                               (DaikinAC.room_temperature (props w))
                        else DaikinAC.room_temperature (props w)))
                  <= S (List.length
                          (pushed (DaikinAC.room_temperature (props w)))))%nat)
      by (destruct (is_numeric i); rewrite ?pushed_notify;
          cbn [List.length]; lia).
    assert (L4 : (List.length
                    (pushed
                       (if is_numeric t
                        then notify_of_external_update t
                               (DaikinAC.target_temperature (props w))
                        else DaikinAC.target_temperature (props w)))
                  <= S (List.length
                          (pushed
                             (DaikinAC.target_temperature (props w)))))%nat)
      by (destruct (is_numeric t); rewrite ?pushed_notify;
          cbn [List.length]; lia).
    lia.
  - destruct e; try (rewrite Hp in I1, I2, I3, I4; cbn [List.length]; lia);
      destruct Hp as [Hp|Hp]; rewrite Hp in I1, I2, I3, I4;
      cbn [DaikinAC.room_temperature DaikinAC.target_temperature
             DaikinAC.power DaikinAC.thermo_mode
             DaikinAC.notify_target_temperature DaikinAC.notify_power
             DaikinAC.notify_thermo_mode] in I1, I2, I3, I4;
      repeat match goal with
             | H : context [pushed (notify_of_external_update _ _)] |- _ =>
                 rewrite pushed_notify in H
             end;
      cbn [List.length] in I1, I2, I3, I4 |- *; lia.
Qed.

Lemma condenser_counts (es : list DaikinCondenser.event)
      (w : world Dev DaikinCondenser.Values) :
  List.length
    (pushed
       (DaikinCondenser.outside_temperature
          (props (DaikinCondenser.run DEBUG es w))))
  = (List.length (pushed (DaikinCondenser.outside_temperature (props w)))
     + DaikinCondenser.completed_polls DEBUG es w)%nat
  /\ slept w
     + UPDATE_THING_SECONDS
       * Z.of_nat (DaikinCondenser.completed_polls DEBUG es w)
     <= slept (DaikinCondenser.run DEBUG es w).
Proof.
  revert w. induction es as [|e es IH]; intros w.
  { cbn [DaikinCondenser.run DaikinCondenser.completed_polls].
    split; unfold UPDATE_THING_SECONDS in *; lia. }
  cbn [DaikinCondenser.run DaikinCondenser.completed_polls].
  destruct (IH (snd (DaikinCondenser.step DEBUG e w))) as (I1 & I2).
  destruct (condenser_step_cases DEBUG e w)
    as [[Hc (v & d & H)]|(Hc & Hp & Hs)]; rewrite Hc.
  - rewrite H in *.
    cbn [props slept with_task with_props with_device after_sleep
           with_slept DaikinCondenser.outside_temperature
           DaikinCondenser.notify_outside_temperature] in I1, I2.
    rewrite pushed_notify in I1. cbn [List.length] in I1.
    split; unfold UPDATE_THING_SECONDS in *; lia.
  - rewrite Hp in I1.
    split; unfold UPDATE_THING_SECONDS in *; lia.
Qed.

(** X10. One notification of mode and of power for each poll that goes
    through. In every run of an indoor unit from its constructor state
    the [mode] value and the [power] value have each been notified once
    for every poll that has gone through and apart from that at most once
    for every write to them, so exactly as often as polls have gone
    through when nothing is written; the room temperature has been
    notified at most once per such poll, the target temperature at most
    once per such poll and write. The condenser's outside temperature has
    been notified exactly once for each of its polls that went through. *)
Theorem one_notification_per_poll :
  (forall (es : list DaikinAC.event) (d : Dev),
     let w := DaikinAC.run DEBUG es (DaikinAC.init d) in
     let n := DaikinAC.completed_polls DEBUG es (DaikinAC.init d) in
     (n <= List.length (pushed (DaikinAC.thermo_mode (props w)))
      <= n + List.length (written_mode es))%nat
     /\ (n <= List.length (pushed (DaikinAC.power (props w)))
         <= n + List.length (written_power es))%nat
     /\ (List.length (pushed (DaikinAC.room_temperature (props w))) <= n)%nat
     /\ (List.length (pushed (DaikinAC.target_temperature (props w)))
         <= n + List.length (written_target es))%nat
     /\ (forallb loop_event es = true ->
         List.length (pushed (DaikinAC.thermo_mode (props w))) = n
         /\ List.length (pushed (DaikinAC.power (props w))) = n))
  /\ (forall (es : list DaikinCondenser.event) (d : Dev),
        List.length
          (pushed
             (DaikinCondenser.outside_temperature
                (props (DaikinCondenser.run DEBUG es
                          (DaikinCondenser.init d)))))
        = DaikinCondenser.completed_polls DEBUG es (DaikinCondenser.init d)).
Proof.
  split.
  - intros es d w n.
    destruct (ac_counts es (DaikinAC.init d)) as (H1 & H2 & H3 & H4).
    fold w in H1, H2, H3, H4. fold n in H1, H2, H3, H4.
    cbn [props DaikinAC.init DaikinAC.init_values DaikinAC.thermo_mode
           DaikinAC.power DaikinAC.room_temperature
           DaikinAC.target_temperature new_Value pushed List.length
           Nat.add] in H1, H2, H3, H4.
    split; [exact H1|]. split; [exact H2|]. split; [exact H3|].
    split; [exact H4|].
    intros Hes. destruct (written_of_loop_events es Hes) as (_ & E2 & E3).
    rewrite E3 in H1. rewrite E2 in H2. cbn [List.length] in H1, H2.
    split; lia.
  - intros es d. destruct (condenser_counts es (DaikinCondenser.init d))
      as (H1 & _).
    exact H1.
Qed.

(** X11. Polls are at least a poll interval apart. In every run from the
    constructor state, the time the update task has spent sleeping is at
    least [UPDATE_THING_SECONDS] times the number of polls that have gone
    through, for both Things: the n-th successful poll of an appliance does
    not happen before n intervals have passed. *)
Theorem polls_are_an_interval_apart :
  (forall (es : list DaikinAC.event) (d : Dev),
     UPDATE_THING_SECONDS
     * Z.of_nat (DaikinAC.completed_polls DEBUG es (DaikinAC.init d))
     <= slept (DaikinAC.run DEBUG es (DaikinAC.init d)))
  /\ (forall (es : list DaikinCondenser.event) (d : Dev),
        UPDATE_THING_SECONDS
        * Z.of_nat (DaikinCondenser.completed_polls DEBUG es
                      (DaikinCondenser.init d))
        <= slept (DaikinCondenser.run DEBUG es (DaikinCondenser.init d))).
Proof.
  split; intros es d.
  - pose proof (ac_slept_bound DEBUG es (DaikinAC.init d)) as H.
    cbn [slept DaikinAC.init] in H. lia.
  - destruct (condenser_counts es (DaikinCondenser.init d)) as (_ & H).
    cbn [slept DaikinCondenser.init] in H. lia.
Qed.

End Counting.

(** ** What can become visible *)

Lemma py_eq_str_left (s : str) (v : PyVal) :
  py_eq (PyStr s) v = true -> v = PyStr s.
Proof.
  destruct v as [|b|z|f|t]; try discriminate.
  unfold py_eq; cbn [num_of]. intros H. apply str_eqb_eq in H. now subst.
Qed.

Section Visible.
Context {Dev : Type} {client : Daikin.Client Dev}.
Variable DEBUG : bool.

(** X12. A numeric string is shown as a string. When the inside
    temperature arrives as a string that passes the numeric test and the
    poll goes through, that very string becomes the visible value of
    [room_temperature]: nothing converts it to a number, although the
    property is declared with type "number". *)
Theorem numeric_string_stays_string
        (w w' : world Dev DaikinAC.Values) (s : str) (d : Dev) :
  Daikin.inside_temperature (device w) = (Some (PyStr s), d) ->
  isnumeric s = true ->
  DaikinAC.poll DEBUG w = (Return tt, w') ->
  last_value (DaikinAC.room_temperature (props w')) = PyStr s.
Proof.
  intros Hin Hs H.
  apply ac_poll_cases in H
    as [[[=] _]|(_ & i & t & m & p & d' & d0 & d1 & d2 & Hi & _ & ->)].
  rewrite Hin in Hi. injection Hi as <- <-.
  cbn [props with_props with_device].
  destruct (notified_fields (PyStr s) t m p (props w)) as (-> & _).
  assert (Hn : is_numeric (PyStr s) = true)
    by (unfold is_numeric; cbn; now rewrite Hs).
  rewrite Hn. unfold notify_of_external_update; cbn [last_value is_not_None].
  cbn [andb]. unfold py_ne.
  destruct (py_eq (PyStr s) _) eqn:E; cbn [negb]; [|reflexivity].
  now apply py_eq_str_left in E.
Qed.

(** A property of the condenser's value that a notification keeps is kept
    by every run. *)
Lemma condenser_values_invariant (Q : DaikinCondenser.Values -> Prop) :
  (forall x v, Q v -> Q (DaikinCondenser.notify_outside_temperature x v)) ->
  forall es (w : world Dev DaikinCondenser.Values),
    Q (props w) -> Q (props (DaikinCondenser.run DEBUG es w)).
Proof.
  intros HQ es. induction es as [|e es IH]; intros w Hw; [exact Hw|].
  cbn [DaikinCondenser.run]. apply IH.
  destruct (condenser_step_cases DEBUG e w)
    as [[_ (x & d & ->)]|(_ & -> & _)]; [|exact Hw].
  cbn [props with_task with_props]. now apply HQ.
Qed.

(** X13. No property ever shows [None]. In every run from the constructor
    state, whatever the appliance answers (a [None] reading included, which
    the condenser does push), the visible values of all four properties of
    an indoor unit and of the condenser's [outside_temperature] are
    different from [None]. *)
Theorem values_are_never_None :
  (forall (es : list DaikinAC.event) (d : Dev),
     let v := props (DaikinAC.run DEBUG es (DaikinAC.init d)) in
     is_not_None (last_value (DaikinAC.room_temperature v)) = true
     /\ is_not_None (last_value (DaikinAC.target_temperature v)) = true
     /\ is_not_None (last_value (DaikinAC.thermo_mode v)) = true
     /\ is_not_None (last_value (DaikinAC.power v)) = true)
  /\ (forall (es : list DaikinCondenser.event) (d : Dev),
        is_not_None
          (last_value
             (DaikinCondenser.outside_temperature
                (props (DaikinCondenser.run DEBUG es
                          (DaikinCondenser.init d))))) = true).
Proof.
  assert (Hkeep : forall x V,
            is_not_None (last_value V) = true ->
            is_not_None (last_value (notify_of_external_update x V)) = true).
  { intros x V HV.
    destruct (last_value_notify x V) as [->|[-> Hx]]; assumption. }
  split.
  - intros es d v. subst v.
    apply (ac_values_invariant DEBUG
             (fun v =>
                is_not_None (last_value (DaikinAC.room_temperature v)) = true
                /\ is_not_None (last_value (DaikinAC.target_temperature v))
                   = true
                /\ is_not_None (last_value (DaikinAC.thermo_mode v)) = true
                /\ is_not_None (last_value (DaikinAC.power v)) = true)).
    + intros i t m p v (H1 & H2 & H3 & H4).
      destruct (notified_fields i t m p v) as (-> & -> & -> & ->).
      repeat split; try (now apply Hkeep).
      * destruct (is_numeric i); [now apply Hkeep | exact H1].
      * destruct (is_numeric t); [now apply Hkeep | exact H2].
    + intros x v _ (H1 & H2 & H3 & H4).
      cbn [DaikinAC.room_temperature DaikinAC.target_temperature
             DaikinAC.thermo_mode DaikinAC.power
             DaikinAC.notify_target_temperature].
      repeat split; try assumption. now apply Hkeep.
    + intros x v _ (H1 & H2 & H3 & H4).
      cbn [DaikinAC.room_temperature DaikinAC.target_temperature
             DaikinAC.thermo_mode DaikinAC.power DaikinAC.notify_power].
      repeat split; try assumption. now apply Hkeep.
    + intros x v _ (H1 & H2 & H3 & H4).
      cbn [DaikinAC.room_temperature DaikinAC.target_temperature
             DaikinAC.thermo_mode DaikinAC.power
             DaikinAC.notify_thermo_mode].
      repeat split; try assumption. now apply Hkeep.
    + repeat split; reflexivity.
  - intros es d.
    apply (condenser_values_invariant
             (fun v => is_not_None
                         (last_value (DaikinCondenser.outside_temperature v))
                       = true)).
    + intros x v Hv. now apply Hkeep.
    + reflexivity.
Qed.

End Visible.

Lemma numeric_string_stays_string_witness :
  Daikin.inside_temperature
    (device (with_task Sleeping
               (DaikinAC.init (with_htemp (PyStr (lit "21")) cooling))))
  = (Some (PyStr (lit "21")),
     received (with_htemp (PyStr (lit "21")) cooling) 0)
  /\ isnumeric (lit "21") = true
  /\ last_value
       (DaikinAC.room_temperature
          (props
             (snd (DaikinAC.poll false
                     (with_task Sleeping
                        (DaikinAC.init
                           (with_htemp (PyStr (lit "21")) cooling)))))))
     = PyStr (lit "21").
Proof.
  split; [reflexivity|]. split; [reflexivity|].
  apply (numeric_string_stays_string false
           (with_task Sleeping
              (DaikinAC.init (with_htemp (PyStr (lit "21")) cooling)))
           _ (lit "21")
           (received (with_htemp (PyStr (lit "21")) cooling) 0));
    [reflexivity | reflexivity | vm_compute; reflexivity].
Defined.

(** ** Shutting the server down *)

Section Shutdown.
Context {Dev : Type} {client : Daikin.Client Dev}.
Variable DEBUG : bool.

Lemma cancel_office (f : Fleet.fleet Dev) :
  Fleet.on Fleet.office Fleet.put_office
    (DaikinAC.cancel_update_level_task DEBUG) f
  = match Fleet.update_task (Fleet.office_daikin f) with
    | Created =>
        (Raise CancelledError,
         Fleet.put_office
           (with_task (Failed CancelledError) (Fleet.office f)) f)
    | Sleeping =>
        (Return tt, Fleet.put_office (with_task Done (Fleet.office f)) f)
    | Done => (Return tt, f)
    | Failed e => (Raise e, f)
    end.
Proof.
  unfold Fleet.on. rewrite ac_cancel_outcome.
  destruct f as [u0 u1 u2 [ov ot os] k b c sv]. cbn.
  destruct ot; reflexivity.
Qed.

Lemma cancel_kitchen (f : Fleet.fleet Dev) :
  Fleet.on Fleet.kitchen Fleet.put_kitchen
    (DaikinAC.cancel_update_level_task DEBUG) f
  = match Fleet.update_task (Fleet.kitchen_daikin f) with
    | Created =>
        (Raise CancelledError,
         Fleet.put_kitchen
           (with_task (Failed CancelledError) (Fleet.kitchen f)) f)
    | Sleeping =>
        (Return tt, Fleet.put_kitchen (with_task Done (Fleet.kitchen f)) f)
    | Done => (Return tt, f)
    | Failed e => (Raise e, f)
    end.
Proof.
  unfold Fleet.on. rewrite ac_cancel_outcome.
  destruct f as [u0 u1 u2 o [kv kt ks] b c sv]. cbn.
  destruct kt; reflexivity.
Qed.

Lemma cancel_bedroom (f : Fleet.fleet Dev) :
  Fleet.on Fleet.bedroom Fleet.put_bedroom
    (DaikinAC.cancel_update_level_task DEBUG) f
  = match Fleet.update_task (Fleet.bedroom_daikin f) with
    | Created =>
        (Raise CancelledError,
         Fleet.put_bedroom
           (with_task (Failed CancelledError) (Fleet.bedroom f)) f)
    | Sleeping =>
        (Return tt, Fleet.put_bedroom (with_task Done (Fleet.bedroom f)) f)
    | Done => (Return tt, f)
    | Failed e => (Raise e, f)
    end.
Proof.
  unfold Fleet.on. rewrite ac_cancel_outcome.
  destruct f as [u0 u1 u2 o k [bv bt bs] c sv]. cbn.
  destruct bt; reflexivity.
Qed.

Lemma cancel_condenser (f : Fleet.fleet Dev) :
  Fleet.on Fleet.condenser Fleet.put_condenser
    (DaikinCondenser.cancel_update_level_task DEBUG) f
  = match Fleet.update_task (Fleet.daikin_condenser f) with
    | Created =>
        (Raise CancelledError,
         Fleet.put_condenser
           (with_task (Failed CancelledError) (Fleet.condenser f)) f)
    | Sleeping =>
        (Return tt,
         Fleet.put_condenser (with_task Done (Fleet.condenser f)) f)
    | Done => (Return tt, f)
    | Failed e => (Raise e, f)
    end.
Proof.
  unfold Fleet.on. rewrite condenser_cancel_outcome.
  destruct f as [u0 u1 u2 o k b [cv ct cs] sv]. cbn.
  destruct ct; reflexivity.
Qed.

(** A finished task stays as it is under every event of its Thing, and a
    task that has not returned does not return unless it is cancelled. *)
Lemma ac_step_done (e : DaikinAC.event) (w : world Dev DaikinAC.Values) :
  done (sensor_update_task w) = true ->
  sensor_update_task (snd (DaikinAC.step DEBUG e w)) = sensor_update_task w.
Proof.
  intros H. exact (proj1 (ac_finished_forever DEBUG [e] w H)).
Qed.

Lemma condenser_step_done (e : DaikinCondenser.event)
      (w : world Dev DaikinCondenser.Values) :
  done (sensor_update_task w) = true ->
  sensor_update_task (snd (DaikinCondenser.step DEBUG e w))
  = sensor_update_task w.
Proof.
  intros H.
  pose proof (condenser_finished_forever DEBUG [e] w H) as E.
  cbn [DaikinCondenser.run] in E. now rewrite E.
Qed.

Lemma ac_step_not_cancelled (e : DaikinAC.event)
      (w : world Dev DaikinAC.Values) :
  e <> DaikinAC.Shutdown ->
  sensor_update_task w <> Done ->
  sensor_update_task (snd (DaikinAC.step DEBUG e w)) <> Done.
Proof.
  intros He Hw.
  assert (Hdec : {e = DaikinAC.SleepElapsed} + {e <> DaikinAC.SleepElapsed})
    by (destruct e; (now left) || (right; discriminate)).
  destruct Hdec as [->|Hs].
  - destruct (sensor_update_task w) eqn:E;
      try (rewrite ac_sleep_elapsed_idle by (rewrite E; discriminate);
           now rewrite E).
    destruct (ac_sleep_elapsed_cases DEBUG w E)
      as [[d H]|(i & t & m & p & d & d0 & d1 & d2 & _ & _ & H)];
      cbv zeta in H; rewrite H; discriminate.
  - destruct e; try (now elim He); try (now elim Hs).
    + cbn [DaikinAC.step]. destruct (sensor_update_task w) eqn:E; cbn;
        try discriminate; now rewrite E.
    + cbn [DaikinAC.step].
      unfold DaikinAC.Value_set, DaikinAC.set_tgt_temp.
      destruct (value_set_cases (AssignTargetTemperature v)
                  DaikinAC.notify_target_temperature v w) as [d [-> | ->]];
        exact Hw.
    + cbn [DaikinAC.step].
      unfold DaikinAC.Value_set, DaikinAC.set_power.
      destruct (value_set_cases (AssignPower (if truthy v then 1 else 0))
                  DaikinAC.notify_power v w) as [d [-> | ->]];
        exact Hw.
    + cbn [DaikinAC.step].
      unfold DaikinAC.Value_set, DaikinAC.set_tmode.
      destruct (value_set_cases (encode_mode v)
                  DaikinAC.notify_thermo_mode v w) as [d [-> | ->]];
        exact Hw.
Qed.

Lemma condenser_step_not_cancelled (e : DaikinCondenser.event)
      (w : world Dev DaikinCondenser.Values) :
  e <> DaikinCondenser.Shutdown ->
  sensor_update_task w <> Done ->
  sensor_update_task (snd (DaikinCondenser.step DEBUG e w)) <> Done.
Proof.
  intros He Hw. destruct e; try (now elim He).
  - cbn [DaikinCondenser.step]. destruct (sensor_update_task w) eqn:E; cbn;
      try discriminate; now rewrite E.
  - destruct (sensor_update_task w) eqn:E;
      try (rewrite condenser_sleep_elapsed_idle by (rewrite E; discriminate);
           now rewrite E).
    rewrite (condenser_sleep_elapsed_eq DEBUG w E).
    destruct (Daikin.outside_temperature (device w)) as [[v|] d];
      discriminate.
Qed.

(** The four tasks of a fleet, in the order of the handler. *)
Lemma happen_frame (a : Fleet.activity) (f : Fleet.fleet Dev) :
  Fleet.serving (Fleet.happen DEBUG a f) = Fleet.serving f
  /\ (done (Fleet.update_task (Fleet.office_daikin f)) = true ->
      Fleet.update_task (Fleet.office_daikin (Fleet.happen DEBUG a f))
      = Fleet.update_task (Fleet.office_daikin f))
  /\ (done (Fleet.update_task (Fleet.kitchen_daikin f)) = true ->
      Fleet.update_task (Fleet.kitchen_daikin (Fleet.happen DEBUG a f))
      = Fleet.update_task (Fleet.kitchen_daikin f))
  /\ (done (Fleet.update_task (Fleet.bedroom_daikin f)) = true ->
      Fleet.update_task (Fleet.bedroom_daikin (Fleet.happen DEBUG a f))
      = Fleet.update_task (Fleet.bedroom_daikin f))
  /\ (done (Fleet.update_task (Fleet.daikin_condenser f)) = true ->
      Fleet.update_task (Fleet.daikin_condenser (Fleet.happen DEBUG a f))
      = Fleet.update_task (Fleet.daikin_condenser f)).
Proof.
  destruct a as [[| |] e|e]; cbn [Fleet.happen]; unfold Fleet.on.
  - pose proof (ac_step_done e (Fleet.office f)) as H.
    destruct (DaikinAC.step DEBUG e (Fleet.office f)) as [r w'].
    cbn in *. repeat split; auto.
  - pose proof (ac_step_done e (Fleet.kitchen f)) as H.
    destruct (DaikinAC.step DEBUG e (Fleet.kitchen f)) as [r w'].
    cbn in *. repeat split; auto.
  - pose proof (ac_step_done e (Fleet.bedroom f)) as H.
    destruct (DaikinAC.step DEBUG e (Fleet.bedroom f)) as [r w'].
    cbn in *. repeat split; auto.
  - pose proof (condenser_step_done e (Fleet.condenser f)) as H.
    destruct (DaikinCondenser.step DEBUG e (Fleet.condenser f)) as [r w'].
    cbn in *. repeat split; auto.
Qed.

Lemma happen_not_cancelled (a : Fleet.activity) (f : Fleet.fleet Dev) :
  Fleet.spontaneous a = true ->
  (Fleet.update_task (Fleet.kitchen_daikin f) <> Done ->
   Fleet.update_task (Fleet.kitchen_daikin (Fleet.happen DEBUG a f)) <> Done)
  /\ (Fleet.update_task (Fleet.bedroom_daikin f) <> Done ->
      Fleet.update_task (Fleet.bedroom_daikin (Fleet.happen DEBUG a f))
      <> Done)
  /\ (Fleet.update_task (Fleet.daikin_condenser f) <> Done ->
      Fleet.update_task (Fleet.daikin_condenser (Fleet.happen DEBUG a f))
      <> Done).
Proof.
  intros Ha.
  destruct a as [[| |] e|e]; cbn [Fleet.happen]; unfold Fleet.on.
  - destruct (DaikinAC.step DEBUG e (Fleet.office f)) as [r w'].
    cbn. repeat split; auto.
  - assert (He : e <> DaikinAC.Shutdown)
      by (intros ->; discriminate).
    pose proof (ac_step_not_cancelled e (Fleet.kitchen f) He) as H.
    destruct (DaikinAC.step DEBUG e (Fleet.kitchen f)) as [r w'].
    cbn in *. repeat split; auto.
  - assert (He : e <> DaikinAC.Shutdown)
      by (intros ->; discriminate).
    pose proof (ac_step_not_cancelled e (Fleet.bedroom f) He) as H.
    destruct (DaikinAC.step DEBUG e (Fleet.bedroom f)) as [r w'].
    cbn in *. repeat split; auto.
  - assert (He : e <> DaikinCondenser.Shutdown)
      by (intros ->; discriminate).
    pose proof (condenser_step_not_cancelled e (Fleet.condenser f) He) as H.
    destruct (DaikinCondenser.step DEBUG e (Fleet.condenser f)) as [r w'].
    cbn in *. repeat split; auto.
Qed.

Lemma run_loop_frame (acts : list Fleet.activity) (f : Fleet.fleet Dev) :
  Fleet.serving (Fleet.run_loop DEBUG acts f) = Fleet.serving f
  /\ (done (Fleet.update_task (Fleet.office_daikin f)) = true ->
      Fleet.update_task (Fleet.office_daikin (Fleet.run_loop DEBUG acts f))
      = Fleet.update_task (Fleet.office_daikin f))
  /\ (done (Fleet.update_task (Fleet.kitchen_daikin f)) = true ->
      Fleet.update_task (Fleet.kitchen_daikin (Fleet.run_loop DEBUG acts f))
      = Fleet.update_task (Fleet.kitchen_daikin f))
  /\ (done (Fleet.update_task (Fleet.bedroom_daikin f)) = true ->
      Fleet.update_task (Fleet.bedroom_daikin (Fleet.run_loop DEBUG acts f))
      = Fleet.update_task (Fleet.bedroom_daikin f))
  /\ (done (Fleet.update_task (Fleet.daikin_condenser f)) = true ->
      Fleet.update_task
        (Fleet.daikin_condenser (Fleet.run_loop DEBUG acts f))
      = Fleet.update_task (Fleet.daikin_condenser f)).
Proof.
  revert f. induction acts as [|a acts IH]; intros f; [now repeat split|].
  cbn [Fleet.run_loop].
  destruct (IH (Fleet.happen DEBUG a f)) as (I0 & I1 & I2 & I3 & I4).
  destruct (happen_frame a f) as (H0 & H1 & H2 & H3 & H4).
  split; [congruence|].
  split; [intros H; rewrite I1 by (rewrite H1; assumption); auto|].
  split; [intros H; rewrite I2 by (rewrite H2; assumption); auto|].
  split; [intros H; rewrite I3 by (rewrite H3; assumption); auto|].
  intros H. rewrite I4 by (rewrite H4; assumption). auto.
Qed.

Lemma run_loop_not_cancelled (acts : list Fleet.activity)
      (f : Fleet.fleet Dev) :
  forallb Fleet.spontaneous acts = true ->
  (Fleet.update_task (Fleet.kitchen_daikin f) <> Done ->
   Fleet.update_task (Fleet.kitchen_daikin (Fleet.run_loop DEBUG acts f))
   <> Done)
  /\ (Fleet.update_task (Fleet.bedroom_daikin f) <> Done ->
      Fleet.update_task (Fleet.bedroom_daikin (Fleet.run_loop DEBUG acts f))
      <> Done)
  /\ (Fleet.update_task (Fleet.daikin_condenser f) <> Done ->
      Fleet.update_task
        (Fleet.daikin_condenser (Fleet.run_loop DEBUG acts f))
      <> Done).
Proof.
  revert f. induction acts as [|a acts IH]; intros f; [now repeat split|].
  cbn [forallb Fleet.run_loop]. rewrite andb_true_iff. intros [Ha Hacts].
  destruct (IH (Fleet.happen DEBUG a f) Hacts) as (I1 & I2 & I3).
  destruct (happen_not_cancelled a f Ha) as (H1 & H2 & H3).
  repeat split; auto.
Qed.

(** What cancelling one task leaves alone, and when it returns. *)
Lemma cancel_office_frame (f : Fleet.fleet Dev) :
  let r := Fleet.on Fleet.office Fleet.put_office
             (DaikinAC.cancel_update_level_task DEBUG) f in
  Fleet.kitchen_daikin (snd r) = Fleet.kitchen_daikin f
  /\ Fleet.bedroom_daikin (snd r) = Fleet.bedroom_daikin f
  /\ Fleet.daikin_condenser (snd r) = Fleet.daikin_condenser f
  /\ Fleet.serving (snd r) = Fleet.serving f
  /\ (fst r = Return tt ->
      Fleet.update_task (Fleet.office_daikin (snd r)) = Done)
  /\ (Fleet.cancellable (Fleet.update_task (Fleet.office_daikin f)) = false ->
      fst r <> Return tt).
Proof.
  cbv zeta. rewrite cancel_office.
  destruct f as [u0 u1 u2 [ov ot os] k b c sv]. cbn.
  destruct ot; cbn; repeat split; intros; try discriminate; auto.
Qed.

Lemma cancel_kitchen_frame (f : Fleet.fleet Dev) :
  let r := Fleet.on Fleet.kitchen Fleet.put_kitchen
             (DaikinAC.cancel_update_level_task DEBUG) f in
  Fleet.office_daikin (snd r) = Fleet.office_daikin f
  /\ Fleet.bedroom_daikin (snd r) = Fleet.bedroom_daikin f
  /\ Fleet.daikin_condenser (snd r) = Fleet.daikin_condenser f
  /\ Fleet.serving (snd r) = Fleet.serving f
  /\ (fst r = Return tt ->
      Fleet.update_task (Fleet.kitchen_daikin (snd r)) = Done).
Proof.
  cbv zeta. rewrite cancel_kitchen.
  destruct f as [u0 u1 u2 o [kv kt ks] b c sv]. cbn.
  destruct kt; cbn; repeat split; intros; try discriminate; auto.
Qed.

Lemma cancel_bedroom_frame (f : Fleet.fleet Dev) :
  let r := Fleet.on Fleet.bedroom Fleet.put_bedroom
             (DaikinAC.cancel_update_level_task DEBUG) f in
  Fleet.office_daikin (snd r) = Fleet.office_daikin f
  /\ Fleet.kitchen_daikin (snd r) = Fleet.kitchen_daikin f
  /\ Fleet.daikin_condenser (snd r) = Fleet.daikin_condenser f
  /\ Fleet.serving (snd r) = Fleet.serving f
  /\ (fst r = Return tt ->
      Fleet.update_task (Fleet.bedroom_daikin (snd r)) = Done).
Proof.
  cbv zeta. rewrite cancel_bedroom.
  destruct f as [u0 u1 u2 o k [bv bt bs] c sv]. cbn.
  destruct bt; cbn; repeat split; intros; try discriminate; auto.
Qed.

Lemma cancel_condenser_frame (f : Fleet.fleet Dev) :
  let r := Fleet.on Fleet.condenser Fleet.put_condenser
             (DaikinCondenser.cancel_update_level_task DEBUG) f in
  Fleet.office_daikin (snd r) = Fleet.office_daikin f
  /\ Fleet.kitchen_daikin (snd r) = Fleet.kitchen_daikin f
  /\ Fleet.bedroom_daikin (snd r) = Fleet.bedroom_daikin f
  /\ Fleet.serving (snd r) = Fleet.serving f
  /\ (fst r = Return tt ->
      Fleet.update_task (Fleet.daikin_condenser (snd r)) = Done).
Proof.
  cbv zeta. rewrite cancel_condenser.
  destruct f as [u0 u1 u2 o k b [cv ct cs] sv]. cbn.
  destruct ct; cbn; repeat split; intros; try discriminate; auto.
Qed.

(** X14. A shutdown that returns has stopped everything. Whatever the
    shared event loop runs for the Things while the handler of
    [run_server] waits for each cancelled task, if the handler returns
    normally then all four update tasks have returned and the server is
    stopped. It does return, touching no property value and no appliance,
    if each of the four tasks is sleeping or has returned when the
    keyboard interrupt arrives and the loop runs nothing else during the
    waits. *)
Theorem shutdown_stops_everything
        (m1 m2 m3 m4 : list Fleet.activity) (f : Fleet.fleet Dev) :
  (fst (Fleet.keyboard_interrupt DEBUG m1 m2 m3 m4 f) = Return tt ->
   let f' := snd (Fleet.keyboard_interrupt DEBUG m1 m2 m3 m4 f) in
   Fleet.update_task (Fleet.office_daikin f') = Done
   /\ Fleet.update_task (Fleet.kitchen_daikin f') = Done
   /\ Fleet.update_task (Fleet.bedroom_daikin f') = Done
   /\ Fleet.update_task (Fleet.daikin_condenser f') = Done
   /\ Fleet.serving f' = false)
  /\ (Fleet.cancellable (Fleet.update_task (Fleet.office_daikin f)) = true ->
      Fleet.cancellable (Fleet.update_task (Fleet.kitchen_daikin f)) = true ->
      Fleet.cancellable (Fleet.update_task (Fleet.bedroom_daikin f)) = true ->
      Fleet.cancellable (Fleet.update_task (Fleet.daikin_condenser f))
      = true ->
      Fleet.keyboard_interrupt DEBUG [] [] [] [] f
      = (Return tt,
         {| Fleet.unit30 := Fleet.unit30 f;
            Fleet.unit31 := Fleet.unit31 f;
            Fleet.unit32 := Fleet.unit32 f;
            Fleet.office_daikin := Fleet.cancelled (Fleet.office_daikin f);
            Fleet.kitchen_daikin := Fleet.cancelled (Fleet.kitchen_daikin f);
            Fleet.bedroom_daikin := Fleet.cancelled (Fleet.bedroom_daikin f);
            Fleet.daikin_condenser :=
              Fleet.cancelled (Fleet.daikin_condenser f);
            Fleet.serving := false |})).
Proof.
  split.
  - unfold Fleet.keyboard_interrupt, bind, Fleet.joined.
    pose proof (cancel_office_frame f) as F1. cbv zeta in F1.
    destruct (Fleet.on Fleet.office Fleet.put_office _ f) as [r1 f1].
    cbn [fst snd] in F1. destruct F1 as (_ & _ & _ & _ & O1 & _).
    destruct r1 as [[]|e1]; [|discriminate].
    specialize (O1 eq_refl).
    destruct (run_loop_frame m1 f1) as (_ & G1 & _).
    rewrite O1 in G1. specialize (G1 eq_refl).
    set (g1 := Fleet.run_loop DEBUG m1 f1) in *.
    pose proof (cancel_kitchen_frame g1) as F2. cbv zeta in F2.
    destruct (Fleet.on Fleet.kitchen Fleet.put_kitchen _ g1) as [r2 f2].
    cbn [fst snd] in F2. destruct F2 as (K0 & _ & _ & _ & K1).
    destruct r2 as [[]|e2]; [|discriminate].
    specialize (K1 eq_refl).
    destruct (run_loop_frame m2 f2) as (_ & G2o & G2k & _).
    rewrite K0, G1 in G2o. specialize (G2o eq_refl).
    rewrite K1 in G2k. specialize (G2k eq_refl).
    set (g2 := Fleet.run_loop DEBUG m2 f2) in *.
    pose proof (cancel_bedroom_frame g2) as F3. cbv zeta in F3.
    destruct (Fleet.on Fleet.bedroom Fleet.put_bedroom _ g2) as [r3 f3].
    cbn [fst snd] in F3. destruct F3 as (B0 & Bk & _ & _ & B1).
    destruct r3 as [[]|e3]; [|discriminate].
    specialize (B1 eq_refl).
    destruct (run_loop_frame m3 f3) as (_ & G3o & G3k & G3b & _).
    rewrite B0, G2o in G3o. specialize (G3o eq_refl).
    rewrite Bk, G2k in G3k. specialize (G3k eq_refl).
    rewrite B1 in G3b. specialize (G3b eq_refl).
    set (g3 := Fleet.run_loop DEBUG m3 f3) in *.
    pose proof (cancel_condenser_frame g3) as F4. cbv zeta in F4.
    destruct (Fleet.on Fleet.condenser Fleet.put_condenser _ g3) as [r4 f4].
    cbn [fst snd] in F4. destruct F4 as (C0 & Ck & Cb & _ & C1).
    destruct r4 as [[]|e4]; [|discriminate].
    specialize (C1 eq_refl).
    destruct (run_loop_frame m4 f4) as (_ & G4o & G4k & G4b & G4c).
    rewrite C0, G3o in G4o. specialize (G4o eq_refl).
    rewrite Ck, G3k in G4k. specialize (G4k eq_refl).
    rewrite Cb, G3b in G4b. specialize (G4b eq_refl).
    rewrite C1 in G4c. specialize (G4c eq_refl).
    intros _. cbn. repeat split; assumption.
  - intros Ho Hk Hb Hc. unfold Fleet.keyboard_interrupt, bind, Fleet.joined.
    cbn [Fleet.run_loop].
    rewrite cancel_office.
    destruct f as [u0 u1 u2 [ov ot os] [kv kt ks] [bv bt bs] [cv ct cs] sv].
    cbn in Ho, Hk, Hb, Hc.
    destruct ot; try discriminate;
      cbn [Fleet.update_task Fleet.office_daikin];
      rewrite cancel_kitchen;
      cbn [Fleet.update_task Fleet.kitchen_daikin Fleet.put_office];
      (destruct kt; try discriminate);
      rewrite cancel_bedroom;
      cbn [Fleet.update_task Fleet.bedroom_daikin Fleet.put_office
             Fleet.put_kitchen];
      (destruct bt; try discriminate);
      rewrite cancel_condenser;
      cbn [Fleet.update_task Fleet.daikin_condenser Fleet.put_office
             Fleet.put_kitchen Fleet.put_bedroom];
      (destruct ct; try discriminate);
      reflexivity.
Qed.

(** X15. A shutdown that raises stops nothing more. Whatever the shared
    event loop runs while the handler waits, if the handler raises then
    the server is not stopped. If the office unit's task, the first to be
    cancelled, has never run or has ended with an exception when the
    keyboard interrupt arrives, the handler raises after the first wait:
    the fleet is left as the event loop's activity during that wait made
    it, and none of the other three tasks is cancelled: one that had not
    returned has not returned afterwards. *)
Theorem shutdown_stops_at_first_failure
        (m1 m2 m3 m4 : list Fleet.activity) (f : Fleet.fleet Dev) :
  (fst (Fleet.keyboard_interrupt DEBUG m1 m2 m3 m4 f) <> Return tt ->
   Fleet.serving (snd (Fleet.keyboard_interrupt DEBUG m1 m2 m3 m4 f))
   = Fleet.serving f)
  /\ (Fleet.cancellable (Fleet.update_task (Fleet.office_daikin f)) = false ->
      let f' := snd (Fleet.keyboard_interrupt DEBUG m1 m2 m3 m4 f) in
      fst (Fleet.keyboard_interrupt DEBUG m1 m2 m3 m4 f) <> Return tt
      /\ f' = Fleet.run_loop DEBUG m1
                (snd (Fleet.on Fleet.office Fleet.put_office
                        (DaikinAC.cancel_update_level_task DEBUG) f))
      /\ (forallb Fleet.spontaneous m1 = true ->
          (Fleet.update_task (Fleet.kitchen_daikin f) <> Done ->
           Fleet.update_task (Fleet.kitchen_daikin f') <> Done)
          /\ (Fleet.update_task (Fleet.bedroom_daikin f) <> Done ->
              Fleet.update_task (Fleet.bedroom_daikin f') <> Done)
          /\ (Fleet.update_task (Fleet.daikin_condenser f) <> Done ->
              Fleet.update_task (Fleet.daikin_condenser f') <> Done))).
Proof.
  split.
  - unfold Fleet.keyboard_interrupt, bind, Fleet.joined.
    pose proof (cancel_office_frame f) as F1. cbv zeta in F1.
    destruct (Fleet.on Fleet.office Fleet.put_office _ f) as [r1 f1].
    cbn [fst snd] in F1. destruct F1 as (_ & _ & _ & S1 & _).
    destruct (run_loop_frame m1 f1) as (T1 & _).
    set (g1 := Fleet.run_loop DEBUG m1 f1) in *.
    destruct r1 as [[]|e1]; [|intros _; cbn [snd]; congruence].
    pose proof (cancel_kitchen_frame g1) as F2. cbv zeta in F2.
    destruct (Fleet.on Fleet.kitchen Fleet.put_kitchen _ g1) as [r2 f2].
    cbn [fst snd] in F2. destruct F2 as (_ & _ & _ & S2 & _).
    destruct (run_loop_frame m2 f2) as (T2 & _).
    set (g2 := Fleet.run_loop DEBUG m2 f2) in *.
    destruct r2 as [[]|e2]; [|intros _; cbn [snd]; congruence].
    pose proof (cancel_bedroom_frame g2) as F3. cbv zeta in F3.
    destruct (Fleet.on Fleet.bedroom Fleet.put_bedroom _ g2) as [r3 f3].
    cbn [fst snd] in F3. destruct F3 as (_ & _ & _ & S3 & _).
    destruct (run_loop_frame m3 f3) as (T3 & _).
    set (g3 := Fleet.run_loop DEBUG m3 f3) in *.
    destruct r3 as [[]|e3]; [|intros _; cbn [snd]; congruence].
    pose proof (cancel_condenser_frame g3) as F4. cbv zeta in F4.
    destruct (Fleet.on Fleet.condenser Fleet.put_condenser _ g3) as [r4 f4].
    cbn [fst snd] in F4. destruct F4 as (_ & _ & _ & S4 & _).
    destruct (run_loop_frame m4 f4) as (T4 & _).
    destruct r4 as [[]|e4]; [|intros _; cbn [snd]; congruence].
    intros H. now elim H.
  - intros Ho f'. subst f'.
    unfold Fleet.keyboard_interrupt, bind, Fleet.joined.
    pose proof (cancel_office_frame f) as F1. cbv zeta in F1.
    destruct (Fleet.on Fleet.office Fleet.put_office _ f) as [r1 f1].
    cbn [fst snd] in F1 |- *.
    destruct F1 as (Fk & Fb & Fc & _ & _ & Fr).
    specialize (Fr Ho).
    destruct r1 as [[]|e1]; [now elim Fr|].
    cbn [fst snd]. split; [discriminate|]. split; [reflexivity|].
    intros Hm.
    destruct (run_loop_not_cancelled m1 f1 Hm) as (N1 & N2 & N3).
    rewrite Fk in N1. rewrite Fb in N2. rewrite Fc in N3.
    repeat split; assumption.
Qed.

End Shutdown.

Lemma shutdown_stops_everything_witness :
  Fleet.cancellable (Fleet.update_task (Fleet.office_daikin Fleet.asleep))
  = true
  /\ fst (Fleet.keyboard_interrupt false [] [] [] [] Fleet.asleep)
     = Return tt
  /\ Fleet.serving
       (snd (Fleet.keyboard_interrupt false [] [] [] [] Fleet.asleep))
     = false.
Proof.
  split; [reflexivity|].
  rewrite (proj2 (shutdown_stops_everything false [] [] [] [] Fleet.asleep)
             eq_refl eq_refl eq_refl eq_refl).
  split; reflexivity.
Defined.

Lemma shutdown_stops_at_first_failure_witness :
  Fleet.cancellable
    (Fleet.update_task
       (Fleet.office_daikin
          (Fleet.put_office
             (with_task (Failed ReadError) (DaikinAC.init cooling))
             Fleet.asleep)))
  = false
  /\ fst (Fleet.keyboard_interrupt false
            [Fleet.AtUnit Fleet.Kitchen DaikinAC.SleepElapsed] [] [] []
            (Fleet.put_office
               (with_task (Failed ReadError) (DaikinAC.init cooling))
               Fleet.asleep))
     <> Return tt.
Proof.
  split; [reflexivity|].
  exact (proj1 (proj2 (shutdown_stops_at_first_failure false
                         [Fleet.AtUnit Fleet.Kitchen DaikinAC.SleepElapsed]
                         [] [] []
                         (Fleet.put_office
                            (with_task (Failed ReadError)
                               (DaikinAC.init cooling))
                            Fleet.asleep))
                  eq_refl)).
Defined.

(** With all four tasks asleep at the interrupt, a poll of the kitchen
    unit that runs while the handler waits for the office task and fails
    makes the handler raise: the office task has returned, the bedroom and
    condenser tasks are still asleep, and the server is still serving. *)
Example shutdown_interrupted_by_poll :
  fst (Fleet.keyboard_interrupt false
         [Fleet.AtUnit Fleet.Kitchen DaikinAC.SleepElapsed] [] [] []
         Fleet.kitchen_unreachable)
  = Raise ReadError
  /\ map (fun t => Fleet.update_task
                     (t (snd (Fleet.keyboard_interrupt false
                                [Fleet.AtUnit Fleet.Kitchen
                                   DaikinAC.SleepElapsed] [] [] []
                                Fleet.kitchen_unreachable))))
       [Fleet.office_daikin; Fleet.kitchen_daikin; Fleet.bedroom_daikin]
     = [Done; Failed ReadError; Sleeping]
  /\ Fleet.update_task
       (Fleet.daikin_condenser
          (snd (Fleet.keyboard_interrupt false
                  [Fleet.AtUnit Fleet.Kitchen DaikinAC.SleepElapsed]
                  [] [] []
                  Fleet.kitchen_unreachable)))
     = Sleeping
  /\ Fleet.serving
       (snd (Fleet.keyboard_interrupt false
               [Fleet.AtUnit Fleet.Kitchen DaikinAC.SleepElapsed] [] [] []
               Fleet.kitchen_unreachable))
     = true.
Proof. repeat split; vm_compute; reflexivity. Qed.

Lemma cancel_is_final_witness :
  sensor_update_task Scenario.ac_sleeping = Sleeping
  /\ DaikinAC.room_temperature
       (props
          (DaikinAC.run false
             [DaikinAC.SleepElapsed; DaikinAC.SetPower (PyBool false);
              DaikinAC.SleepElapsed]
             (snd (DaikinAC.cancel_update_level_task false
                     Scenario.ac_sleeping))))
     = DaikinAC.room_temperature (props Scenario.ac_sleeping).
Proof.
  split; [reflexivity|].
  exact (proj1 (proj2 (proj2 (proj2
           (proj1 (cancel_is_final false) Scenario.ac_sleeping
              [DaikinAC.SleepElapsed; DaikinAC.SetPower (PyBool false);
               DaikinAC.SleepElapsed]
              eq_refl))))).
Defined.

Lemma cancel_twice_witness :
  Fleet.cancellable (sensor_update_task Scenario.ac_sleeping) = true
  /\ DaikinAC.cancel_update_level_task false
       (with_task Done Scenario.ac_sleeping)
     = (Return tt, with_task Done Scenario.ac_sleeping).
Proof.
  split; [reflexivity|].
  exact (proj2 (proj1 (cancel_twice false) Scenario.ac_sleeping eq_refl)).
Defined.

Lemma cancel_raises_outside_sleep_witness :
  sensor_update_task Scenario.ac_after_outage = Failed ReadError
  /\ DaikinAC.cancel_update_level_task false Scenario.ac_after_outage
     = (Raise ReadError, Scenario.ac_after_outage).
Proof.
  assert (H : sensor_update_task Scenario.ac_after_outage = Failed ReadError)
    by (vm_compute; reflexivity).
  split; [exact H|].
  exact (proj2 (proj1 (cancel_raises_outside_sleep false)
                  Scenario.ac_after_outage ReadError) H).
Defined.

Lemma mode_stays_in_enum_witness :
  Forall (fun v => exists n, In n Construct.mode_enum /\ v = PyStr (lit n))
         (written_mode
            [DaikinAC.Start; DaikinAC.SetMode (PyStr (lit "heat"));
             DaikinAC.SleepElapsed])
  /\ exists n,
       In n Construct.mode_enum
       /\ last_value
            (DaikinAC.thermo_mode
               (props
                  (DaikinAC.run false
                     [DaikinAC.Start; DaikinAC.SetMode (PyStr (lit "heat"));
                      DaikinAC.SleepElapsed]
                     (DaikinAC.init cooling))))
          = PyStr (lit n).
Proof.
  assert (H : Forall (fun v => exists n, In n Construct.mode_enum
                                         /\ v = PyStr (lit n))
                (written_mode
                   [DaikinAC.Start; DaikinAC.SetMode (PyStr (lit "heat"));
                    DaikinAC.SleepElapsed])).
  { simpl. constructor; [|constructor].
    exists "heat"%string. split; [simpl; tauto | reflexivity]. }
  split; [exact H|].
  exact (mode_stays_in_enum false _ cooling H).
Defined.

Lemma temperatures_stay_numeric_witness :
  Forall (fun v => is_numeric v = true)
         (written_target
            [DaikinAC.Start; DaikinAC.SetTargetTemperature (PyInt 23);
             DaikinAC.SleepElapsed])
  /\ is_numeric
       (last_value
          (DaikinAC.target_temperature
             (props
                (DaikinAC.run false
                   [DaikinAC.Start; DaikinAC.SetTargetTemperature (PyInt 23);
                    DaikinAC.SleepElapsed]
                   (DaikinAC.init cooling))))) = true.
Proof.
  assert (H : Forall (fun v => is_numeric v = true)
                (written_target
                   [DaikinAC.Start;
                    DaikinAC.SetTargetTemperature (PyInt 23);
                    DaikinAC.SleepElapsed])).
  { simpl. constructor; [reflexivity | constructor]. }
  split; [exact H|].
  exact (proj2 (temperatures_stay_numeric false _ cooling) H).
Defined.

Lemma one_notification_per_poll_witness :
  forallb loop_event
    [DaikinAC.Start; DaikinAC.SleepElapsed; DaikinAC.SleepElapsed] = true
  /\ List.length
       (pushed
          (DaikinAC.thermo_mode
             (props
                (DaikinAC.run false
                   [DaikinAC.Start; DaikinAC.SleepElapsed;
                    DaikinAC.SleepElapsed]
                   (DaikinAC.init cooling)))))
     = DaikinAC.completed_polls false
         [DaikinAC.Start; DaikinAC.SleepElapsed; DaikinAC.SleepElapsed]
         (DaikinAC.init cooling).
Proof.
  split; [reflexivity|].
  exact (proj1 (proj2 (proj2 (proj2 (proj2
           (proj1 (one_notification_per_poll false)
              [DaikinAC.Start; DaikinAC.SleepElapsed; DaikinAC.SleepElapsed]
              cooling)))) eq_refl)).
Defined.

(** ** The debug switch *)

Section Debug.
Context {Dev : Type} {client : Daikin.Client Dev}.

Lemma rest_of_poll_debug (i t : PyVal) (w w1 : world Dev DaikinAC.Values) :
  DaikinAC.rest_of_poll true i t w = (Return tt, w1) ->
  exists d, DaikinAC.rest_of_poll false i t w = (Return tt, with_device d w1).
Proof.
  unfold DaikinAC.rest_of_poll, bind, daikin_get.
  destruct (Daikin.mode (device w)) as [[mode|] d1]; simpl;
    [|discriminate].
  destruct (Daikin.power d1) as [[power|] d2]; simpl; [|discriminate].
  destruct (Daikin.power d2) as [[power'|] d3]; simpl; [|discriminate].
  destruct (Daikin.mode d3) as [[mode'|] d4]; simpl; [|discriminate].
  destruct (Daikin.power d4) as [[power''|] d5]; simpl; [|discriminate].
  destruct (Daikin.mode d5) as [[mode''|] d6]; simpl; [|discriminate].
  unfold DaikinAC.notify, modify, ret.
  destruct (is_numeric i), (is_numeric t); simpl; intros [= <-];
    exists d4; reflexivity.
Qed.

(** X16. The debug switch changes no notification. Whenever a poll of an
    indoor unit goes through with [DEBUG] set, the poll without it goes
    through from the same state as well and leaves the same property
    values, task and time slept; the two differ at most in the state of the
    appliance, which under [DEBUG] has answered two more requests. For the
    condenser the two polls are the same. *)
Theorem debug_changes_no_notification :
  (forall w w1 : world Dev DaikinAC.Values,
     DaikinAC.poll true w = (Return tt, w1) ->
     exists d, DaikinAC.poll false w = (Return tt, with_device d w1))
  /\ (forall w : world Dev DaikinCondenser.Values,
        DaikinCondenser.poll true w = DaikinCondenser.poll false w).
Proof.
  split.
  - intros w w1. unfold DaikinAC.poll, bind, try_except.
    destruct (daikin_get Daikin.inside_temperature w) as [[i|e] w0];
      [|discriminate].
    destruct (daikin_get Daikin.target_temperature w0) as [[t|e] w2].
    + apply rest_of_poll_debug.
    + unfold ret. apply rest_of_poll_debug.
  - intros w. now rewrite !condenser_poll_eq.
Qed.

End Debug.

Lemma debug_changes_no_notification_witness :
  DaikinAC.poll true Scenario.ac_sleeping
  = (Return tt, snd (DaikinAC.poll true Scenario.ac_sleeping))
  /\ exists d,
       DaikinAC.poll false Scenario.ac_sleeping
       = (Return tt,
          with_device d (snd (DaikinAC.poll true Scenario.ac_sleeping))).
Proof.
  assert (H : DaikinAC.poll true Scenario.ac_sleeping
              = (Return tt, snd (DaikinAC.poll true Scenario.ac_sleeping)))
    by (vm_compute; reflexivity).
  split; [exact H|].
  exact (proj1 debug_changes_no_notification Scenario.ac_sleeping _ H).
Defined.
